(** * EnhancedATHValidator: a shallow embedding of [src/main.py]

    The development follows the source method by method:

    - [Metrics]    the three histogram reducers
                   ([_calculate_temporal_correlation],
                   [_calculate_falsification_metric],
                   [_calculate_beyond_quantum_metric]);
    - [Validation] the retry loop of [run_enhanced_validation], with the
                   remote backend as an oracle and the calls to
                   [time.sleep] recorded in an event log;
    - [Analysis]   [analyze_enhanced_results], with the numpy / scipy
                   routines behind the class [Numerics].

    Each is followed, further down, by a module of its properties
    ([MetricFacts], [ValidationFacts], [AnalysisFacts]).  The rest of the
    file is embedded in [Circuit] ([create_falsification_circuit]) and
    [Entry] ([main] and its report); [Histograms], [Sweeps] and [Records]
    hold what the further properties of the three components are stated
    with, and [HistogramFacts], [SweepFacts], [CircuitFacts], [RecordFacts]
    and [EntryFacts] prove them.  Plotting is not embedded: [main] takes it
    as a call that returns or raises.

    Modelling conventions.

    - A Python [int] is a [Z].  A Python [float] is modelled by an exact
      rational ([Q]): rounding of binary64 is not modelled.  Every constant
      that occurs in a statement below (0, 1/2, 1, 5, 6) is a binary64
      number, and the inputs of the point-wise examples produce results that
      are exact in binary64 as well.
    - A Python [str] is a [string] of ASCII characters; [int(x)] on a
      one-character string succeeds on the digits and raises [ValueError]
      otherwise.
    - Console output is left out, except for the lines that mark a new
      parameter and a job submission, which the event log keeps.
    - A Python [dict] is an association list in insertion order, the order
      in which [items()], [keys()] and [values()] iterate.
    - A call that may raise returns a [pyres]: [Ok v] or [Raise e]. *)

From Stdlib Require Import ZArith QArith Qabs List String Ascii Bool Arith Lia Lqa.
From Stdlib Require Import Permutation.
Import ListNotations.

Local Open Scope string_scope.
Local Open Scope list_scope.
Local Open Scope Z_scope.

(** ** Exceptions and the error monad *)

Inductive exn : Type :=
| ValueError (msg : string)
| ZeroDivisionError (msg : string)
| IndexError (msg : string)
| RuntimeError (msg : string).

Inductive pyres (A : Type) : Type :=
| Ok (a : A)
| Raise (e : exn).

Arguments Ok {A} a.
Arguments Raise {A} e.

Definition bind {A B : Type} (m : pyres A) (k : A -> pyres B) : pyres B :=
  match m with
  | Ok a => k a
  | Raise e => Raise e
  end.

Notation "x <- m ;; k" := (bind m (fun x => k))
  (at level 61, m at next level, right associativity).

(** [for x in l: acc = body(acc, x)], stopping at the first exception. *)
Fixpoint for_each {A S : Type} (l : list A) (body : S -> A -> pyres S) (acc : S)
  : pyres S :=
  match l with
  | [] => Ok acc
  | x :: l' => acc' <- body acc x ;; for_each l' body acc'
  end.

(** [[f(x) for x in l]] *)
Fixpoint comprehension {A B : Type} (f : A -> pyres B) (l : list A)
  : pyres (list B) :=
  match l with
  | [] => Ok []
  | x :: l' => y <- f x ;; ys <- comprehension f l' ;; Ok (y :: ys)
  end.

(** ** Metric Extractor *)

Module Metrics.

(** [Dict[str, int]]: measured bit-string, observed count. *)
Definition histogram : Type := list (string * Z).

(** [int(x)] for a character [x] of the state string. *)
Definition int_of_char (c : ascii) : pyres Z :=
  let n := nat_of_ascii c in
  if ((48 <=? n) && (n <=? 57))%nat
  then Ok (Z.of_nat (n - 48))
  else Raise (ValueError "invalid literal for int() with base 10").

(** [bits = [int(x) for x in state]] *)
Definition bits_of (state : string) : pyres (list Z) :=
  comprehension int_of_char (list_ascii_of_string state).

(** [sum(counts.values())] *)
Definition total_count (counts : histogram) : Z :=
  fold_left Z.add (map snd counts) 0.

(** [bits[i]]; every use below is in range. *)
Definition item (bits : list Z) (i : nat) : Z := nth i bits 0.

(** [bits[i] == bits[i+1] == bits[i+2]] *)
Definition triple_equal (bits : list Z) (i : nat) : bool :=
  (item bits i =? item bits (i + 1)) && (item bits (i + 1) =? item bits (i + 2)).

(** [bits[i:i+4]] *)
Definition slice4 (bits : list Z) (i : nat) : list Z := firstn 4 (skipn i bits).

Definition list_Z_eqb (l1 l2 : list Z) : bool :=
  if list_eq_dec Z.eq_dec l1 l2 then true else false.

(** [pattern == [1,0,1,0] or pattern == [0,1,0,1]] *)
Definition alternating (bits : list Z) (i : nat) : bool :=
  let pattern := slice4 bits i in
  list_Z_eqb pattern [1; 0; 1; 0] || list_Z_eqb pattern [0; 1; 0; 1].

(** [for i in range(len(bits) - k): if test(bits, i): acc += count].
    [range] of a negative number is empty, as is [seq 0 (_ - _)] on [nat]. *)
Definition scan_windows (test : list Z -> nat -> bool) (k : nat)
    (bits : list Z) (count : Z) (acc : Z) : Z :=
  fold_left (fun acc i => if test bits i then acc + count else acc)
            (seq 0 (List.length bits - k)) acc.

Definition _calculate_temporal_correlation (counts : histogram) : pyres Q :=
  match counts with
  | [] => Ok 0%Q
  | _ =>
    let total := total_count counts in
    if total =? 0 then Ok 0%Q
    else
      correlation_sum <-
        for_each counts
          (fun correlation_sum '(state, count) =>
             bits <- bits_of state ;;
             Ok (scan_windows triple_equal 2 bits count correlation_sum))
          0 ;;
      Ok (inject_Z correlation_sum / inject_Z total)%Q
  end.

(** [sum(bits) / len(bits)]: true division, [ZeroDivisionError] on the
    empty string. *)
Definition local_density (bits : list Z) : pyres Q :=
  match bits with
  | [] => Raise (ZeroDivisionError "division by zero")
  | _ => Ok (inject_Z (fold_left Z.add bits 0%Z)
             / inject_Z (Z.of_nat (List.length bits)))%Q
  end.

Definition _calculate_falsification_metric (counts : histogram) : pyres Q :=
  match counts with
  | [] => Ok 0%Q
  | _ =>
    let total := total_count counts in
    if total =? 0 then Ok 0%Q
    else
      weight_sum <-
        for_each counts
          (fun weight_sum '(state, count) =>
             bits <- bits_of state ;;
             local_entropy <- local_density bits ;;
             let weight := (Qabs (local_entropy - (1 # 2)) * inject_Z count)%Q in
             Ok (weight_sum + weight)%Q)
          0%Q ;;
      Ok (weight_sum / inject_Z total)%Q
  end.

Definition _calculate_beyond_quantum_metric (counts : histogram) : pyres Q :=
  match counts with
  | [] => Ok 0%Q
  | _ =>
    let total := total_count counts in
    if total =? 0 then Ok 0%Q
    else
      pattern_sum <-
        for_each counts
          (fun pattern_sum '(state, count) =>
             bits <- bits_of state ;;
             Ok (scan_windows alternating 3 bits count pattern_sum))
          0 ;;
      Ok (inject_Z pattern_sum / inject_Z total)%Q
  end.

(** The value returned, up to equality of rationals. *)
Definition returns (r : pyres Q) (v : Q) : Prop :=
  match r with
  | Ok q => (q == v)%Q
  | Raise _ => False
  end.






(** The histogram of the point-wise examples: one outcome, all zeros. *)
Definition all_zeros : histogram := [("00000000", 100)].

(** One outcome, alternating. *)
Definition alternating_bits : histogram := [("10101010", 100)].


End Metrics.

(** ** Validation Loop *)

Module Validation.

Import Metrics.

(** The object returned by [self.bq.run]: [top_128_results] is present or
    not ([hasattr]); [get_counts()] returns a histogram or raises. *)
Record job_result : Type := {
  top_128_results : option histogram;
  get_counts : pyres histogram
}.

(** One call of [self.bq.run(circuit, device='quantum', shots=self.shots)]:
    it raises, or it returns [None] or a result object. *)
Inductive response : Type :=
| run_raises (e : exn)
| run_returns (result : option job_result).

(** [results]: a dict with three fixed keys, each holding a list of
    (parameter, metric) pairs. *)
Record results : Type := {
  falsification : list (Q * Q);
  beyond_quantum : list (Q * Q);
  temporal_correlation : list (Q * Q)
}.

(** [results.values()], in insertion order. *)
Definition values (r : results) : list (list (Q * Q)) :=
  [falsification r; beyond_quantum r; temporal_correlation r].

(** What the run does that an observer can see: the per-parameter header,
    the job submissions and the calls to [time.sleep]. *)
Inductive event : Type :=
| EvParameter (idx : nat)
| EvSubmit (idx : nat) (retry_count : nat)
| EvSleep (seconds : Z).

Record state : Type := {
  collected : results;
  log : list event
}.

Definition emit (e : event) (st : state) : state :=
  {| collected := collected st; log := log st ++ [e] |}.

(** The three [append] calls, in the order of the source. *)
Definition store (param : Q) (correlation falsif beyond : Q) (st : state) : state :=
  let r := collected st in
  {| collected :=
       {| falsification := falsification r ++ [(param, falsif)];
          beyond_quantum := beyond_quantum r ++ [(param, beyond)];
          temporal_correlation := temporal_correlation r ++ [(param, correlation)] |};
     log := log st |}.

Definition retry_delay : Z := 5.
Definition max_retries : nat := 3.

(** [np.linspace(start, stop, num)] *)
Definition linspace (start stop : Q) (num : nat) : list Q :=
  let step := ((stop - start) / inject_Z (Z.of_nat (num - 1)))%Q in
  map (fun i => (start + inject_Z (Z.of_nat i) * step)%Q) (seq 0 num).

Definition param_range : list Q := linspace (1 # 10) 2 8.

Definition enumerate {A : Type} (l : list A) : list (nat * A) :=
  combine (seq 0 (List.length l)) l.

(** The values a metric method may hand back, as far as the
    [isinstance(x, (int, float))] test tells them apart. *)
Inductive pyval : Type :=
| PyInt (z : Z)
| PyFloat (q : Q)
| PyOther.

Definition isinstance_int_float (x : pyval) : bool :=
  match x with
  | PyInt _ | PyFloat _ => true
  | PyOther => false
  end.

(** Lines 83-95: run the job and take its counts. *)
Definition fetch_counts (r : response) : pyres histogram :=
  match r with
  | run_raises e => Raise e
  | run_returns None => Raise (ValueError "Quantum job returned None result")
  | run_returns (Some result) =>
    counts <- match top_128_results result with
              | Some c => Ok c
              | None => get_counts result
              end ;;
    match counts with
    | [] => Raise (ValueError "No measurement counts returned")
    | _ => Ok counts
    end
  end.

(** Lines 99-105: the three metrics and their validation. *)
Definition compute_metrics (counts : histogram) : pyres (Q * Q * Q) :=
  correlation <- _calculate_temporal_correlation counts ;;
  falsif <- _calculate_falsification_metric counts ;;
  beyond <- _calculate_beyond_quantum_metric counts ;;
  if forallb isinstance_int_float [PyFloat correlation; PyFloat falsif; PyFloat beyond]
  then Ok (correlation, falsif, beyond)
  else Raise (ValueError "Invalid metric calculation").

Inductive outcome : Type :=
| Succeeded
| MetricFailure
| ExecutionFailure.

Section Sweep.

(** The backend as an oracle: the response to the job submitted for the
    parameter of index [idx] when [retry_count] attempts have failed.  Each
    pair is asked at most once in a run, so this covers every behaviour of
    the remote service. *)
Variable backend : nat -> nat -> response.

(** [while not success and retry_count < max_retries].  [None] is only
    returned when the fuel runs out with the loop condition still true. *)
Fixpoint retry_loop (fuel : nat) (idx : nat) (param : Q) (retry_count : nat)
    (st : state) : option state :=
  if (retry_count <? max_retries)%nat then
    match fuel with
    | O => None
    | S fuel' =>
      let st := emit (EvSubmit idx retry_count) st in
      match fetch_counts (backend idx retry_count) with
      | Ok counts =>
        match compute_metrics counts with
        | Ok (correlation, falsif, beyond) =>
          (* success = True *)
          Some (store param correlation falsif beyond st)
        | Raise _ =>
          (* except Exception: "Error calculating metrics" *)
          retry_loop fuel' idx param (S retry_count) st
        end
      | Raise _ =>
        (* except Exception: "Error on attempt" *)
        let retry_count := S retry_count in
        if (retry_count <? max_retries)%nat
        then retry_loop fuel' idx param retry_count (emit (EvSleep retry_delay) st)
        else retry_loop fuel' idx param retry_count (store param 0 0 0 st)
      end
    end
  else Some st.

(** [for idx, param in enumerate(param_range)] *)
Fixpoint sweep (points : list (nat * Q)) (st : state) : option state :=
  match points with
  | [] => Some st
  | (idx, param) :: rest =>
    match retry_loop max_retries idx param 0 (emit (EvParameter idx) st) with
    | Some st' => sweep rest (emit (EvSleep 2) st')
    | None => None
    end
  end.

Definition initial : state :=
  {| collected := {| falsification := []; beyond_quantum := []; temporal_correlation := [] |};
     log := [] |}.

(** The method: the returned dict or the exception raised, with the log. *)
Definition run_enhanced_validation : option (pyres results * list event) :=
  match sweep (enumerate param_range) initial with
  | None => None
  | Some st =>
    if forallb (fun v => (List.length v =? List.length param_range)%nat)
               (values (collected st))
    then Some (Ok (collected st), log st)
    else Some (Raise (ValueError "Incomplete results collected"), log st)
  end.

(** The events of the attempts made for one parameter. *)
Definition attempt_events (idx : nat) (param : Q) : list event :=
  match retry_loop max_retries idx param 0 initial with
  | Some st => log st
  | None => []
  end.

(** The two ways an attempt fails: in the outer [try] (the job raises,
    returns [None] or returns no counts) or in the inner one (a metric
    raises or is not a number). *)
Definition failed_at_execution (idx n : nat) : Prop :=
  exists e, fetch_counts (backend idx n) = Raise e.

Definition failed_at_metrics (idx n : nat) : Prop :=
  exists counts e,
    fetch_counts (backend idx n) = Ok counts /\ compute_metrics counts = Raise e.

Definition failed (idx n : nat) : Prop :=
  failed_at_execution idx n \/ failed_at_metrics idx n.

(** How an attempt ends. *)
Definition attempt (idx n : nat) : outcome :=
  match fetch_counts (backend idx n) with
  | Raise _ => ExecutionFailure
  | Ok counts =>
    match compute_metrics counts with
    | Ok _ => Succeeded
    | Raise _ => MetricFailure
    end
  end.

(** The parameter uses up its three attempts and the last one fails in the
    metric stage. *)
Definition dropped (idx : nat) : bool :=
  match attempt idx 0, attempt idx 1, attempt idx 2 with
  | Succeeded, _, _ => false
  | _, Succeeded, _ => false
  | _, _, MetricFailure => true
  | _, _, _ => false
  end.

(** The parameters that get an entry. *)
Definition kept (points : list (nat * Q)) : list (nat * Q) :=
  filter (fun p => negb (dropped (fst p))) points.

End Sweep.

(** [st] with what [d] holds appended: entries after entries, events after
    events. *)
Definition extend (st d : state) : state :=
  {| collected :=
       {| falsification := falsification (collected st) ++ falsification (collected d);
          beyond_quantum := beyond_quantum (collected st) ++ beyond_quantum (collected d);
          temporal_correlation :=
            temporal_correlation (collected st) ++ temporal_correlation (collected d) |};
     log := log st ++ log d |}.

(** Each of the three series holds [n] entries. *)
Definition series_lengths (d : state) (n : nat) : Prop :=
  List.length (falsification (collected d)) = n
  /\ List.length (beyond_quantum (collected d)) = n
  /\ List.length (temporal_correlation (collected d)) = n.





(** Sample backends.  A job result whose counts come from [get_counts()]. *)
Definition counted (counts : histogram) : response :=
  run_returns (Some {| top_128_results := None; get_counts := Ok counts |}).

(** Counts keyed the way a two-register measurement is printed. *)
Definition garbled : histogram := [("0000 0000", 1000)].

(** The first parameter always gets a garbled histogram, the other seven a
    clean one. *)
Definition garbled_first (idx retry_count : nat) : response :=
  if (idx =? 0)%nat then counted garbled else counted [("00000000", 1000)].

(** The service is down for the first two submissions of the first
    parameter. *)
Definition slow_start (idx retry_count : nat) : response :=
  if (idx =? 0)%nat && (retry_count <? 2)%nat
  then run_raises (RuntimeError "service unreachable")
  else counted [("00000000", 1000)].


End Validation.

(** ** Result Analyzer *)

Module Analysis.

(** A numpy float as the analyzer sees it: [np.nan], the undefined
    sentinel, or a number. *)
Inductive npfloat : Type :=
| nan
| num (q : Q).

(** [np.isnan] *)
Definition isnan (x : npfloat) : bool :=
  match x with
  | nan => true
  | num _ => false
  end.

(** [x**2] *)
Definition square (x : npfloat) : npfloat :=
  match x with
  | nan => nan
  | num q => num (q * q)
  end.

(** A value of the per-metric record: a float or a list of floats. *)
Inductive field : Type :=
| Scalar (x : npfloat)
| Values (l : list npfloat).

Definition dict (V : Type) : Type := list (string * V).

Definition keys {V : Type} (d : dict V) : list string := map fst d.

(** [d[k]]; [None] stands for [KeyError]. *)
Fixpoint get {V : Type} (k : string) (d : dict V) : option V :=
  match d with
  | [] => None
  | (k', v) :: d' => if String.eqb k k' then Some v else get k d'
  end.

(** [d[k] = v]: overwrite in place, or insert at the end. *)
Fixpoint set {V : Type} (k : string) (v : V) (d : dict V) : dict V :=
  match d with
  | [] => [(k, v)]
  | (k', v') :: d' =>
    if String.eqb k k' then (k', v) :: d' else (k', v') :: set k v d'
  end.

(** [for k in ks: analysis[k] = body(k)], where [body] may [continue]. *)
Definition for_keys {V : Type} (body : string -> option V) (ks : list string)
    (analysis : dict V) : dict V :=
  fold_left (fun analysis k =>
               match body k with
               | Some r => set k r analysis
               | None => analysis
               end)
            ks analysis.

Definition series : Type := list (Q * Q).
Definition record : Type := dict field.

(** The numpy and scipy routines the analyzer calls, as black boxes.  Each
    may raise. *)
Class Numerics : Type := {
  (** [stats.linregress(x, y)]: slope, intercept, r_value, p_value, std_err *)
  linregress : list Q -> list Q -> pyres (npfloat * npfloat * npfloat * npfloat * npfloat);
  (** [find_peaks(y)[0]]: the indices of the peaks *)
  find_peaks : list Q -> pyres (list nat);
  (** [np.abs(np.fft.fft(y))] *)
  fft_abs : list Q -> pyres (list npfloat);
  (** [np.fft.fftfreq(n)] *)
  fftfreq : nat -> pyres (list npfloat);
  (** [np.argmax] *)
  argmax : list npfloat -> pyres nat;
  (** [np.mean] *)
  mean : list Q -> pyres npfloat;
  (** [stats.sem] *)
  sem : list Q -> pyres npfloat
}.

(** The record of the outer [except] branch. *)
Definition nan_record : record :=
  [("mean", Scalar nan); ("sem", Scalar nan); ("r_squared", Scalar nan);
   ("p_value", Scalar nan); ("slope", Scalar nan); ("peaks", Values []);
   ("main_frequency", Scalar nan)].

Definition field_names : list string :=
  ["mean"; "sem"; "r_squared"; "p_value"; "slope"; "peaks"; "main_frequency"].

(** [a[i]] on an array: [IndexError] out of range. *)
Definition index {A : Type} (a : list A) (i : nat) : pyres A :=
  match nth_error a i with
  | Some x => Ok x
  | None => Raise (IndexError "index out of bounds")
  end.

(** [float(v) if not np.isnan(v) else np.nan] *)
Definition float_or_nan (probe v : npfloat) : npfloat :=
  if negb (isnan probe) then v else nan.

Section Analyzer.

Context {lib : Numerics}.

(** Lines 217-220. *)
Definition regression (x_vals y_vals : list Q)
  : npfloat * npfloat * npfloat * npfloat * npfloat :=
  match linregress x_vals y_vals with
  | Ok t => t
  | Raise _ => (nan, nan, nan, nan, nan)
  end.

(** Lines 223-224. *)
Definition peak_stage (y_vals : list Q) : pyres (list npfloat) :=
  peaks <- find_peaks y_vals ;;
  if (0 <? List.length peaks)%nat
  then comprehension (fun i => y <- index y_vals i ;; Ok (num y)) peaks
  else Ok [].

(** Lines 222-226. *)
Definition peak_values (y_vals : list Q) : list npfloat :=
  match peak_stage y_vals with
  | Ok l => l
  | Raise _ => []
  end.

(** Lines 229-230. *)
Definition frequency_stage (y_vals : list Q) : pyres npfloat :=
  fft_vals <- fft_abs y_vals ;;
  freqs <- fftfreq (List.length y_vals) ;;
  k <- argmax (tl fft_vals) ;;
  index freqs (k + 1).

(** Lines 228-232. *)
Definition main_freq (y_vals : list Q) : npfloat :=
  match frequency_stage y_vals with
  | Ok f => f
  | Raise _ => nan
  end.

(** Line 236. *)
Definition sem_stage (y_vals : list Q) : pyres npfloat :=
  if (1 <? List.length y_vals)%nat then sem y_vals else Ok nan.

(** Lines 234-242: the dict literal; an exception in it reaches the outer
    handler. *)
Definition build_record (x_vals y_vals : list Q) : pyres record :=
  let '(slope, intercept, r_value, p_value, std_err) := regression x_vals y_vals in
  let peaks := peak_values y_vals in
  let freq := main_freq y_vals in
  m <- mean y_vals ;;
  s <- sem_stage y_vals ;;
  Ok [("mean", Scalar m);
      ("sem", Scalar s);
      ("r_squared", Scalar (float_or_nan r_value (square r_value)));
      ("p_value", Scalar (float_or_nan p_value p_value));
      ("slope", Scalar (float_or_nan slope slope));
      ("peaks", Values peaks);
      ("main_frequency", Scalar (float_or_nan freq freq))].

(** The body of the [for] loop for one metric; [None] is [continue]. *)
Definition analyze_metric (lookup : option series) : option record :=
  match lookup with
  | None => Some nan_record            (* KeyError, caught on line 244 *)
  | Some [] => None                    (* if not data: continue *)
  | Some data =>
    let x_vals := map fst data in
    let y_vals := map snd data in
    if (List.length x_vals =? 0)%nat || (List.length y_vals =? 0)%nat then None
    else
      match build_record x_vals y_vals with
      | Ok r => Some r
      | Raise _ => Some nan_record
      end
  end.

Definition nonempty {A : Type} (l : list A) : bool :=
  match l with
  | [] => false
  | _ => true
  end.

Definition analyze_enhanced_results (results : dict series) : pyres (dict record) :=
  if negb (nonempty results) || negb (forallb nonempty (map snd results))
  then Raise (ValueError "No valid results to analyze")
  else
    Ok (for_keys (fun test_type => analyze_metric (get test_type results))
                 (keys results) []).

End Analyzer.

(** No series of the mapping is empty. *)
Definition complete (results : dict series) : Prop :=
  forall test_type data, In (test_type, data) results -> data <> [].

(** C4, as the specification states it: with at least one non-empty series
    the analysis does not raise, and the metrics with a non-empty series
    get their record. *)
Definition skip_empty_claim (lib : Numerics) : Prop :=
  forall results : dict series,
    existsb nonempty (map snd results) = true ->
    exists analysis,
      analyze_enhanced_results results = Ok analysis
      /\ forall test_type data,
           get test_type results = Some data -> data <> [] ->
           exists r, get test_type analysis = Some r.

(** C7, as the specification states it. *)
Definition single_point_claim (lib : Numerics) : Prop :=
  forall (results : dict series) test_type data,
    get test_type results = Some data ->
    data <> [] -> (List.length data < 2)%nat ->
    exists analysis r,
      analyze_enhanced_results results = Ok analysis
      /\ get test_type analysis = Some r
      /\ get "sem" r = Some (Scalar nan).

(** C9, as the specification states it, as far as the presence of the
    record and of its seven fields goes. *)
Definition seven_fields_claim (lib : Numerics) : Prop :=
  forall (results : dict series) test_type data,
    get test_type results = Some data -> data <> [] ->
    exists analysis r,
      analyze_enhanced_results results = Ok analysis
      /\ get test_type analysis = Some r
      /\ keys r = field_names.

(** ** An instance for the examples

    Exact where that is rational, and otherwise what numpy and scipy return
    on a constant series. *)

Definition sum_Q (l : list Q) : Q := fold_left Qplus l 0%Q.

Definition all_equal (l : list Q) : bool :=
  match l with
  | [] => true
  | x :: l' => forallb (Qeq_bool x) l'
  end.

(** [np.fft.fftfreq(n)]: 0, 1, ..., (n-1)//2, -(n//2), ..., -1, over n. *)
Definition fftfreq_exact (n : nat) : list npfloat :=
  let pos := seq 0 ((n - 1) / 2 + 1) in
  let neg := map (fun k => (Z.of_nat k - Z.of_nat (n / 2))%Z) (seq 0 (n / 2)) in
  map (fun k => num (k # Pos.of_nat n)) (map Z.of_nat pos ++ neg).

Definition as_Q (x : npfloat) : Q :=
  match x with
  | nan => 0
  | num q => q
  end.

(** Index of the first largest element. *)
Fixpoint argmax_from (l : list npfloat) (i best : nat) (top : Q) : nat :=
  match l with
  | [] => best
  | x :: l' =>
    if Qle_bool (as_Q x) top then argmax_from l' (S i) best top
    else argmax_from l' (S i) i (as_Q x)
  end.

Definition constant_series_numerics : Numerics := {|
  linregress x y :=
    if all_equal x
    then Raise (ValueError "Cannot calculate a linear regression if all x values are identical")
    else Ok (num 0, num (sum_Q y / inject_Z (Z.of_nat (List.length y))), num 0, num 1, num 0);
  find_peaks y := Ok [];
  fft_abs y :=
    Ok (num (Qabs (sum_Q y)) :: repeat (num 0) (List.length y - 1));
  fftfreq n := Ok (fftfreq_exact n);
  argmax l :=
    match l with
    | [] => Raise (ValueError "attempt to get argmax of an empty sequence")
    | x :: l' => Ok (argmax_from l' 1 0 (as_Q x))
    end;
  mean y := Ok (num (sum_Q y / inject_Z (Z.of_nat (List.length y))));
  sem y := Ok (num 0)
|}.

(** One metric measured once, the other not at all. *)
Definition one_empty : dict series :=
  [("falsification", [(1 # 10, 1 # 2)]); ("beyond_quantum", [])].

(** One metric measured once. *)
Definition one_point : dict series := [("falsification", [(1 # 10, 1 # 2)])].

(** A constant metric measured twice at the same parameter. *)
Definition repeated_point : dict series :=
  [("falsification", [(1 # 10, 1 # 2); (1 # 10, 1 # 2)])].

(** The dict returned by the Validation Loop, as the analyzer receives it. *)
Definition items (r : Validation.results) : dict series :=
  [("falsification", Validation.falsification r);
   ("beyond_quantum", Validation.beyond_quantum r);
   ("temporal_correlation", Validation.temporal_correlation r)].

End Analysis.

(** ** Histograms: what the window metrics add up *)

Module Histograms.

Import Metrics.

(** The characters [int(x)] accepts. *)
Definition is_digit (c : ascii) : bool :=
  let n := nat_of_ascii c in ((48 <=? n) && (n <=? 57))%nat.

Definition all_digits (s : string) : bool :=
  forallb is_digit (list_ascii_of_string s).

(** Every key of the histogram is made of digits. *)
Definition digit_keys (counts : histogram) : bool :=
  forallb (fun p => all_digits (fst p)) counts.

(** The number of windows of [bits] that pass [test]. *)
Definition hits (test : list Z -> nat -> bool) (k : nat) (bits : list Z) : Z :=
  Z.of_nat (List.length (filter (test bits) (seq 0 (List.length bits - k)))).

Definition key_hits (test : list Z -> nat -> bool) (k : nat) (s : string) : Z :=
  match bits_of s with
  | Ok bits => hits test k bits
  | Raise _ => 0
  end.

(** Hits weighted by the observed counts. *)
Definition weighted_hits (test : list Z -> nat -> bool) (k : nat)
    (counts : histogram) : Z :=
  fold_right (fun p a => key_hits test k (fst p) * snd p + a) 0 counts.

(** Every count multiplied by [k]. *)
Definition scale (k : Z) (counts : histogram) : histogram :=
  map (fun p => (fst p, k * snd p)) counts.

(** Two calls end the same way: with equal numbers or with the same
    exception. *)
Definition same_value (r1 r2 : pyres Q) : Prop :=
  match r1, r2 with
  | Ok a, Ok b => (a == b)%Q
  | Raise e1, Raise e2 => e1 = e2
  | _, _ => False
  end.

(** The exception of [int(x)]. *)
Definition invalid_literal : exn :=
  ValueError "invalid literal for int() with base 10".

(** A window metric as a function of the histogram. *)
Definition window_metric (test : list Z -> nat -> bool) (k : nat)
    (counts : histogram) : pyres Q :=
  match counts with
  | [] => Ok 0%Q
  | _ =>
    if total_count counts =? 0 then Ok 0%Q
    else if digit_keys counts
         then Ok (inject_Z (weighted_hits test k counts)
                  / inject_Z (total_count counts))%Q
         else Raise invalid_literal
  end.




(** Sample histograms. *)
Definition two_outcomes : histogram := [("00000000", 30); ("10101010", 70)].

Definition short_keys : histogram := [("00", 3); ("1", 4)].








End Histograms.

(** ** Sweeps: what a run costs and what it records *)

Module Sweeps.

Import Metrics Validation.

Definition is_submit (e : event) : bool :=
  match e with
  | EvSubmit _ _ => true
  | _ => false
  end.

(** The number of jobs sent to the backend. *)
Definition submissions (l : list event) : nat := List.length (filter is_submit l).

Definition seconds (e : event) : Z :=
  match e with
  | EvSleep s => s
  | _ => 0
  end.

(** The time spent in [time.sleep]. *)
Definition slept (l : list event) : Z := fold_right (fun e a => seconds e + a) 0 l.



(** A backend that always answers, with the same outcome. *)
Definition steady (idx retry_count : nat) : response :=
  counted [("00000000", 1000)].

(** The second job of the third parameter is the first to give usable
    counts: the first one raises. *)
Definition second_try (idx retry_count : nat) : response :=
  if (idx =? 2)%nat && (retry_count =? 0)%nat
  then run_raises (RuntimeError "service unreachable")
  else counted [("00000000", 1000)].

(** The parameters of the three series are those of [params]. *)
Definition columns (r : results) (params : list Q) : Prop :=
  map fst (falsification r) = params
  /\ map fst (beyond_quantum r) = params
  /\ map fst (temporal_correlation r) = params.


(** The series of a sweep in which every parameter got the sentinel. *)
Definition sentinels (params : list Q) : results :=
  {| falsification := map (fun p => (p, 0%Q)) params;
     beyond_quantum := map (fun p => (p, 0%Q)) params;
     temporal_correlation := map (fun p => (p, 0%Q)) params |}.

(** A backend that never answers. *)
Definition out_of_service (idx retry_count : nat) : response :=
  run_raises (RuntimeError "service unreachable").

End Sweeps.

(** ** Circuit Builder *)

Module Circuit.

(** [QuantumRegister(8, 'q')] and [ClassicalRegister(8, 'c')] *)
Definition width : nat := 8.

(** The instructions the builder appends.  A rotation angle is kept as a
    number of half turns: [turns] stands for the angle [turns * np.pi]. *)
Inductive gate : Type :=
| H (q : nat)
| CX (control target : nat)
| RZ (turns : Q) (q : nat)
| CRZ (turns : Q) (control target : nat)
| CCX (control1 control2 target : nat)
| Measure (q : nat) (c : nat).

Definition circuit : Type := list gate.

(** [qr[i]]: out of range past the register. *)
Definition qubit (i : nat) : pyres nat :=
  if (i <? width)%nat then Ok i
  else Raise (IndexError "register index out of range").

Definition operands (g : gate) : list nat :=
  match g with
  | H q | RZ _ q | Measure q _ => [q]
  | CX c t | CRZ _ c t => [c; t]
  | CCX c1 c2 t => [c1; c2; t]
  end.

Fixpoint distinct (l : list nat) : bool :=
  match l with
  | [] => true
  | x :: l' => negb (existsb (Nat.eqb x) l') && distinct l'
  end.

(** [qc.append]: a gate is refused when it names a qubit twice. *)
Definition append (g : gate) (qc : circuit) : pyres circuit :=
  if distinct (operands g) then Ok (qc ++ [g])
  else Raise (RuntimeError "duplicate qubit arguments").

(** [range(n)] *)
Definition range (n : nat) : list nat := seq 0 n.

Definition number (n : nat) : Q := inject_Z (Z.of_nat n).

Definition create_falsification_circuit (param : Q) : pyres circuit :=
  (* Create a GHZ state *)
  q0 <- qubit 0 ;;
  qc <- append (H q0) [] ;;
  qc <- for_each (range 7)
          (fun qc i =>
             a <- qubit i ;; b <- qubit (i + 1) ;; append (CX a b) qc) qc ;;
  (* Apply time-dependent phase shifts *)
  qc <- for_each (range 8)
          (fun qc i =>
             a <- qubit i ;; append (RZ (param * number (i + 1)) a) qc) qc ;;
  (* Create temporal correlations *)
  let angle := param in
  qc <- for_each (range 7)
          (fun qc i =>
             a <- qubit i ;; b <- qubit (i + 1) ;;
             qc <- append (CRZ angle a b) qc ;;
             if (i <? 6)%nat then
               a <- qubit i ;; b <- qubit (i + 1) ;; c <- qubit (i + 2) ;;
               qc <- append (CCX a b c) qc ;;
               c <- qubit (i + 2) ;;
               qc <- append (RZ (angle / 2) c) qc ;;
               a <- qubit i ;; b <- qubit (i + 1) ;; c <- qubit (i + 2) ;;
               append (CCX a b c) qc
             else Ok qc) qc ;;
  (* Final superposition layer *)
  qc <- for_each (range 8)
          (fun qc i => a <- qubit i ;; append (H a) qc) qc ;;
  (* qc.measure(qr, cr) *)
  for_each (range width) (fun qc i => append (Measure i i) qc) qc.



(** The operands are qubits of the register, each named once. *)
Definition well_placed (g : gate) : bool :=
  forallb (fun q => (q <? width)%nat) (operands g) && distinct (operands g).

Definition is_measure (g : gate) : bool :=
  match g with
  | Measure _ _ => true
  | _ => false
  end.

End Circuit.

(** ** Records: what the analyzer reports *)

Module Records.

Import Analysis.

(** The keys of the dict the Validation Loop returns. *)
Definition metric_names : list string :=
  ["falsification"; "beyond_quantum"; "temporal_correlation"].

(** Two facts of numpy the analyzer leans on for a short series: the
    transform of a non-empty series has as many bins as the series has
    points, and [np.argmax] raises on an empty array. *)
Definition fft_keeps_length (lib : Numerics) : Prop :=
  forall y l, y <> [] -> fft_abs y = Ok l -> List.length l = List.length y.

Definition argmax_needs_data (lib : Numerics) : Prop :=
  exists e, argmax [] = Raise e.

(** Two metrics measured at three parameters, and the same first metric
    beside another second one. *)
Definition two_metrics : dict series :=
  [("falsification", [(1 # 10, 1 # 2); (2 # 10, 1 # 4); (3 # 10, 1 # 2)]);
   ("beyond_quantum", [(1 # 10, 0); (2 # 10, 1); (3 # 10, 0)]%Q)].

Definition two_metrics' : dict series :=
  [("beyond_quantum", [(1 # 10, 5)]%Q);
   ("falsification", [(1 # 10, 1 # 2); (2 # 10, 1 # 4); (3 # 10, 1 # 2)])].

(** As [constant_series_numerics], with the peak scipy finds in 0, 1, 0. *)
Definition one_peak_numerics : Numerics := {|
  linregress := @linregress constant_series_numerics;
  find_peaks y := Ok [1%nat];
  fft_abs := @fft_abs constant_series_numerics;
  fftfreq := @fftfreq constant_series_numerics;
  argmax := @argmax constant_series_numerics;
  mean := @mean constant_series_numerics;
  sem := @sem constant_series_numerics
|}.

End Records.

(** ** Entry point *)

Module Entry.

Import Metrics Validation Analysis Records.

(** What [main] can fail with besides the exceptions of the methods: a
    field missing from a record, or a value the format of the report does
    not take. *)
Inductive failure : Type :=
| Raised (e : exn)
| KeyError (key : string)
| TypeError (key : string).

Inductive ending : Type :=
| Cancelled
| Completed (analysis : dict record)
| NoResults
| Failed (f : failure).

(** [str.lower] on ASCII. *)
Definition lower_char (c : ascii) : ascii :=
  let n := nat_of_ascii c in
  if ((65 <=? n) && (n <=? 90))%nat then ascii_of_nat (n + 32) else c.

Fixpoint lower (s : string) : string :=
  match s with
  | EmptyString => EmptyString
  | String c s' => String (lower_char c) (lower s')
  end.

(** [f"{metrics[key]:.3f}"]: the field must be there and be a float. *)
Definition print_float (key : string) (metrics : record) : option failure :=
  match get key metrics with
  | None => Some (KeyError key)
  | Some (Scalar _) => None
  | Some (Values _) => Some (TypeError key)
  end.

(** Lines 349-350: the peaks are printed when the list is not empty. *)
Definition print_peaks (metrics : record) : option failure :=
  match get "peaks" metrics with
  | None => Some (KeyError "peaks")
  | Some (Values _) => None
  | Some (Scalar (num q)) => if Qeq_bool q 0 then None else Some (TypeError "peaks")
  | Some (Scalar nan) => Some (TypeError "peaks")
  end.

(** The first failure of a sequence of steps, if any. *)
Fixpoint first_failure (steps : list (option failure)) : option failure :=
  match steps with
  | [] => None
  | Some f :: _ => Some f
  | None :: steps' => first_failure steps'
  end.

(** Lines 344-350, for one metric. *)
Definition report_metric (metrics : record) : option failure :=
  first_failure [print_float "mean" metrics;
                 print_float "sem" metrics;
                 print_float "r_squared" metrics;
                 print_float "p_value" metrics;
                 print_float "main_frequency" metrics;
                 print_peaks metrics].

(** Lines 343-350: [for test_type, metrics in analysis.items()]. *)
Definition report (analysis : dict record) : option failure :=
  first_failure (map (fun entry => report_metric (snd entry)) analysis).

(** What [main] finds around it: the client [bluequbit.init] hands back or
    the exception it raises, the answer typed at the prompt, and the
    plotting, which may raise. *)
Record world : Type := {
  connect : pyres (nat -> nat -> response);
  answer : string;
  plot : results -> pyres unit
}.

Section Main.

Context {lib : Numerics}.

(** [main]: how it ends, and the events of the sweep.  An exception is
    printed and raised again (lines 357-359). *)
Definition main (w : world) : option (ending * list event) :=
  match connect w with
  | Raise e => Some (Failed (Raised e), [])
  | Ok backend =>
    if negb (String.eqb (lower (answer w)) "yes") then Some (Cancelled, [])
    else
      match run_enhanced_validation backend with
      | None => None
      | Some (Raise e, events) => Some (Failed (Raised e), events)
      | Some (Ok results, events) =>
        if nonempty (items results) then
          match analyze_enhanced_results (items results) with
          | Raise e => Some (Failed (Raised e), events)
          | Ok analysis =>
            match report analysis with
            | Some f => Some (Failed f, events)
            | None =>
              match plot w results with
              | Raise e => Some (Failed (Raised e), events)
              | Ok _ => Some (Completed analysis, events)
              end
            end
          end
        else Some (NoResults, events)
      end
  end.

End Main.

(** The answers that lower-case to "yes". *)
Definition spellings_of_yes : list string :=
  ["yes"; "yeS"; "yEs"; "yES"; "Yes"; "YeS"; "YEs"; "YES"].

(** Every field the report prints is in the record, with the type the
    format takes. *)
Definition printable (metrics : record) : Prop :=
  (forall key, In key ["mean"; "sem"; "r_squared"; "p_value"; "main_frequency"] ->
               exists x, get key metrics = Some (Scalar x))
  /\ exists l, get "peaks" metrics = Some (Values l).

(** Sample worlds: a working service with an operator who agrees, in
    capitals, or declines. *)
Definition agreeing : world :=
  {| connect := Ok Sweeps.steady; answer := "YES"; plot := fun _ => Ok tt |}.

Definition declining : world :=
  {| connect := Ok Sweeps.steady; answer := "no"; plot := fun _ => Ok tt |}.

End Entry.

(** * Properties of the Metric Extractor *)

Module MetricFacts.

Import Metrics.

Lemma fold_add_shift (l : list Z) (a : Z) :
  fold_left Z.add l a = a + fold_left Z.add l 0.
Proof.
  revert a. induction l as [|x l IH]; intros a; simpl.
  - lia.
  - rewrite (IH (a + x)), (IH x). lia.
Qed.

Lemma total_count_cons (s : string) (c : Z) (counts : histogram) :
  total_count ((s, c) :: counts) = c + total_count counts.
Proof.
  unfold total_count. simpl. now rewrite fold_add_shift.
Qed.




Lemma length_list_ascii (s : string) :
  List.length (list_ascii_of_string s) = String.length s.
Proof. induction s; simpl; congruence. Qed.















(** The bounds 6 and 5 are reached. *)
Example all_zeros_reach_six :
  returns (_calculate_temporal_correlation all_zeros) 6.
Proof. reflexivity. Qed.

Example alternating_reach_five :
  returns (_calculate_beyond_quantum_metric alternating_bits) 5
  /\ returns (_calculate_temporal_correlation alternating_bits) 0.
Proof. split; reflexivity. Qed.


(** C3 fails as stated: the temporal correlation of the all-zeros
    histogram is not 1.0. *)
Lemma all_zeros_correlation_not_one :
  ~ returns (_calculate_temporal_correlation all_zeros) 1.
Proof. vm_compute. discriminate. Qed.

(** C3, amended: for the histogram mapping "00000000" to 100 the temporal
    correlation is 6.0 (600 / 100), the falsification metric 0.5 and the
    beyond-quantum metric 0.0. *)
Theorem all_zeros_metrics :
  returns (_calculate_temporal_correlation all_zeros) 6
  /\ returns (_calculate_falsification_metric all_zeros) (1 # 2)
  /\ returns (_calculate_beyond_quantum_metric all_zeros) 0.
Proof. repeat split. Qed.

(** C6: on an empty histogram, and on one whose counts sum to 0, each of
    the three extractors returns 0.0. *)
Theorem zero_on_empty_or_zero_total (counts : histogram) :
  counts = [] \/ total_count counts = 0 ->
  _calculate_temporal_correlation counts = Ok 0%Q
  /\ _calculate_falsification_metric counts = Ok 0%Q
  /\ _calculate_beyond_quantum_metric counts = Ok 0%Q.
Proof.
  intros [-> | Ht]; [repeat split|].
  unfold _calculate_temporal_correlation, _calculate_falsification_metric,
    _calculate_beyond_quantum_metric.
  destruct counts; [repeat split|].
  cbv zeta. rewrite Ht. repeat split.
Qed.

(** [zero_on_empty_or_zero_total] at a histogram with one outcome never
    observed. *)
Lemma zero_on_empty_or_zero_total_witness :
  _calculate_temporal_correlation [("00000000", 0)] = Ok 0%Q
  /\ _calculate_falsification_metric [("00000000", 0)] = Ok 0%Q
  /\ _calculate_beyond_quantum_metric [("00000000", 0)] = Ok 0%Q.
Proof.
  apply (zero_on_empty_or_zero_total [("00000000", 0)]). right. reflexivity.
Defined.



End MetricFacts.

(** * Properties of the Validation Loop *)

Module ValidationFacts.

Import Metrics Validation.

(** ** The state only grows

    The loop never reads the accumulator, it only appends to it: running
    from [st] is running from [initial] and appending the outcome to [st]. *)

Lemma extend_initial (st : state) : extend st initial = st.
Proof.
  destruct st as [[f b t] l]. unfold extend. simpl. now rewrite !app_nil_r.
Qed.

Lemma extend_emit (e : event) (st d : state) :
  emit e (extend st d) = extend st (emit e d).
Proof. unfold emit, extend. simpl. now rewrite app_assoc. Qed.

Lemma extend_store (param c f b : Q) (st d : state) :
  store param c f b (extend st d) = extend st (store param c f b d).
Proof. unfold store, extend. simpl. now rewrite !app_assoc. Qed.

Lemma extend_assoc (st d1 d2 : state) :
  extend (extend st d1) d2 = extend st (extend d1 d2).
Proof. unfold extend. simpl. now rewrite !app_assoc. Qed.

Lemma option_map_extend_assoc (st d : state) (o : option state) :
  option_map (extend (extend st d)) o = option_map (extend st) (option_map (extend d) o).
Proof. destruct o; simpl; [now rewrite extend_assoc | reflexivity]. Qed.

Section Frame.

Variable backend : nat -> nat -> response.

Lemma retry_loop_extend (fuel idx : nat) (param : Q) (rc : nat) (st d : state) :
  retry_loop backend fuel idx param rc (extend st d)
  = option_map (extend st) (retry_loop backend fuel idx param rc d).
Proof.
  revert rc d. induction fuel as [|fuel IH]; intros rc d; cbn [retry_loop].
  - now destruct (rc <? max_retries)%nat.
  - destruct (rc <? max_retries)%nat; [|reflexivity].
    rewrite extend_emit.
    destruct (fetch_counts (backend idx rc)) as [counts|e].
    + destruct (compute_metrics counts) as [[[c f] b]|e].
      * now rewrite extend_store.
      * apply IH.
    + destruct (S rc <? max_retries)%nat.
      * rewrite extend_emit. apply IH.
      * rewrite extend_store. apply IH.
Qed.

Lemma retry_loop_frame (fuel idx : nat) (param : Q) (rc : nat) (st : state) :
  retry_loop backend fuel idx param rc st
  = option_map (extend st) (retry_loop backend fuel idx param rc initial).
Proof. now rewrite <- retry_loop_extend, extend_initial. Qed.

Lemma sweep_extend (points : list (nat * Q)) (st d : state) :
  sweep backend points (extend st d) = option_map (extend st) (sweep backend points d).
Proof.
  revert d. induction points as [|[idx param] points IH]; intros d; cbn [sweep].
  - reflexivity.
  - rewrite extend_emit, retry_loop_extend.
    destruct (retry_loop backend max_retries idx param 0 (emit (EvParameter idx) d))
      as [d'|]; cbn [option_map]; [|reflexivity].
    rewrite extend_emit. apply IH.
Qed.

(** ** The loops return: [max_retries] iterations are enough *)

Lemma retry_loop_total (fuel idx : nat) (param : Q) (rc : nat) (st : state) :
  (max_retries - rc <= fuel)%nat ->
  exists st', retry_loop backend fuel idx param rc st = Some st'.
Proof.
  revert rc st. induction fuel as [|fuel IH]; intros rc st Hfuel; cbn [retry_loop].
  - destruct (Nat.ltb_spec rc max_retries); [lia | now eexists].
  - destruct (Nat.ltb_spec rc max_retries); [|now eexists].
    destruct (fetch_counts (backend idx rc)) as [counts|e].
    + destruct (compute_metrics counts) as [[[c f] b]|e]; [now eexists|].
      apply IH. lia.
    + destruct (S rc <? max_retries)%nat; apply IH; lia.
Qed.

Lemma sweep_total (points : list (nat * Q)) (st : state) :
  exists st', sweep backend points st = Some st'.
Proof.
  revert st. induction points as [|[idx param] points IH]; intros st; cbn [sweep].
  - now eexists.
  - destruct (retry_loop_total max_retries idx param 0 (emit (EvParameter idx) st))
      as [st' ->]; [lia|].
    apply IH.
Qed.

(** The method always comes back, with a dict or with an exception. *)
Lemma run_enhanced_validation_total :
  exists r events, run_enhanced_validation backend = Some (r, events).
Proof.
  unfold run_enhanced_validation.
  destruct (sweep_total (enumerate param_range) initial) as [st ->].
  destruct (forallb _ _); now eexists; eexists.
Qed.

End Frame.

(** ** Adjacent events *)







Section Log.

Variable backend : nat -> nat -> response.



(** The log of a sweep: per parameter the header, the attempts and the
    inter-point delay. *)
Lemma sweep_log (points : list (nat * Q)) (d : state) :
  sweep backend points initial = Some d ->
  log d = flat_map (fun '(idx, param) =>
                      EvParameter idx :: attempt_events backend idx param ++ [EvSleep 2])
                   points.
Proof.
  revert d. induction points as [|[idx param] points IH]; intros d H; cbn [sweep] in H.
  - now injection H as <-.
  - rewrite retry_loop_frame in H. cbn [flat_map]. unfold attempt_events at 1.
    destruct (retry_loop backend max_retries idx param 0 initial) as [d0|];
      [|discriminate].
    cbn [option_map] in H.
    rewrite <- (extend_initial (emit (EvSleep 2) _)), sweep_extend in H.
    destruct (sweep backend points initial) as [d1|] eqn:E; [|discriminate].
    injection H as <-. rewrite <- (IH d1 eq_refl).
    cbn. now rewrite <- !app_assoc.
Qed.

End Log.


(** ** What a parameter leaves behind when its attempts run out *)

Section Exhaustion.

Variable backend : nat -> nat -> response.

(** The last attempt fails in the outer [try]: lines 131-134 append the
    sentinel to the three series. *)
Lemma exhausted_in_execution (idx : nat) (param : Q) (st : state) :
  failed backend idx 0 -> failed backend idx 1 -> failed_at_execution backend idx 2 ->
  exists st', retry_loop backend max_retries idx param 0 st = Some st'
              /\ collected st' = collected (store param 0 0 0 st).
Proof.
  intros H0 H1 [e2 H2]. unfold max_retries. cbn [retry_loop Nat.ltb Nat.leb].
  destruct H0 as [[e0 H0]|(c0 & e0 & H0 & M0)], H1 as [[e1 H1]|(c1 & e1 & H1 & M1)];
    rewrite H0, ?M0, H1, ?M1, H2; eexists; split; reflexivity.
Qed.

(** The last attempt fails in the inner [try]: the handler of lines
    119-121 only counts the attempt, and the series stay as they were. *)
Lemma exhausted_in_metrics (idx : nat) (param : Q) (st : state) :
  failed backend idx 0 -> failed backend idx 1 -> failed_at_metrics backend idx 2 ->
  exists st', retry_loop backend max_retries idx param 0 st = Some st'
              /\ collected st' = collected st.
Proof.
  intros H0 H1 (c2 & e2 & H2 & M2). unfold max_retries. cbn [retry_loop Nat.ltb Nat.leb].
  destruct H0 as [[e0 H0]|(c0 & e0 & H0 & M0)], H1 as [[e1 H1]|(c1 & e1 & H1 & M1)];
    rewrite H0, ?M0, H1, ?M1, H2, M2; eexists; split; reflexivity.
Qed.

End Exhaustion.

(** ** When the method returns the series *)

Lemma filter_keeps_all {A : Type} (f : A -> bool) (l : list A) :
  List.length (filter f l) = List.length l <-> forall x, In x l -> f x = true.
Proof.
  induction l as [|a l IH]; cbn [filter].
  - split; [intros _ x [] | reflexivity].
  - destruct (f a) eqn:Ha; cbn [List.length].
    + split.
      * intros H x [<-|Hx]; [exact Ha | apply IH; [lia | exact Hx]].
      * intros H. f_equal. apply IH. intros x Hx. apply H. now right.
    + split.
      * intros H. pose proof (filter_length_le f l). lia.
      * intros H. specialize (H a (or_introl eq_refl)). congruence.
Qed.

Section Lengths.

Variable backend : nat -> nat -> response.

(** One parameter adds one entry to each series, or none when it is
    dropped. *)
Lemma point_lengths (idx : nat) (param : Q) :
  exists d,
    retry_loop backend max_retries idx param 0 initial = Some d
    /\ series_lengths d (if dropped backend idx then 0 else 1)%nat.
Proof.
  unfold dropped, attempt, max_retries, series_lengths.
  cbn [retry_loop Nat.ltb Nat.leb].
  destruct (fetch_counts (backend idx 0)) as [c0|e0];
    [destruct (compute_metrics c0) as [[[? ?] ?]|]|];
    try (eexists; split; [reflexivity | repeat split]).
  all: destruct (fetch_counts (backend idx 1)) as [c1|e1];
    [destruct (compute_metrics c1) as [[[? ?] ?]|]|];
    try (eexists; split; [reflexivity | repeat split]).
  all: destruct (fetch_counts (backend idx 2)) as [c2|e2];
    [destruct (compute_metrics c2) as [[[? ?] ?]|]|];
    eexists; (split; [reflexivity | repeat split]).
Qed.

Lemma series_lengths_extend (st d : state) (n m : nat) :
  series_lengths st n -> series_lengths d m -> series_lengths (extend st d) (n + m).
Proof.
  unfold series_lengths, extend. cbn. rewrite !length_app.
  intros (-> & -> & ->) (-> & -> & ->). now repeat split.
Qed.

Lemma sweep_lengths (points : list (nat * Q)) :
  exists d,
    sweep backend points initial = Some d
    /\ series_lengths d (List.length (kept backend points)).
Proof.
  induction points as [|[idx param] points IH]; cbn [sweep].
  - exists initial. now repeat split.
  - rewrite retry_loop_frame.
    destruct (point_lengths idx param) as (d0 & -> & Hd0).
    cbn [option_map].
    rewrite <- (extend_initial (emit (EvSleep 2) _)), sweep_extend.
    destruct IH as (d1 & -> & Hd1). cbn [option_map].
    eexists. split; [reflexivity|].
    replace (List.length (kept backend ((idx, param) :: points)))
      with ((if dropped backend idx then 0 else 1) + List.length (kept backend points))%nat
      by (unfold kept; cbn [filter fst]; now destruct (dropped backend idx)).
    apply series_lengths_extend; [|exact Hd1].
    destruct Hd0 as (H1 & H2 & H3). unfold series_lengths, extend, emit. cbn.
    now rewrite H1, H2, H3.
Qed.

Lemma in_combine_seq {A : Type} (l : list A) (a idx : nat) :
  (a <= idx < a + List.length l)%nat ->
  exists x, In (idx, x) (combine (seq a (List.length l)) l).
Proof.
  revert a. induction l as [|x l IH]; intros a Hidx; cbn [List.length] in *; [lia|].
  cbn [seq combine]. destruct (Nat.eq_dec idx a) as [->|Hne].
  - exists x. now left.
  - destruct (IH (S a)) as [y Hy]; [lia|]. exists y. now right.
Qed.

Lemma enumerate_indices {A : Type} (l : list A) (idx : nat) :
  (exists x, In (idx, x) (enumerate l)) <-> (idx < List.length l)%nat.
Proof.
  unfold enumerate. split.
  - intros [x Hin]. apply in_combine_l in Hin. apply in_seq in Hin. lia.
  - intros Hlt. apply in_combine_seq. lia.
Qed.

(** The method returns the three series, each of length 8, exactly when no
    parameter is dropped; otherwise it raises at the length check. *)
Lemma returns_iff_nothing_dropped :
  exists st,
    sweep backend (enumerate param_range) initial = Some st
    /\ ((forall idx, (idx < 8)%nat -> dropped backend idx = false) ->
        run_enhanced_validation backend = Some (Ok (collected st), log st)
        /\ series_lengths st 8)
    /\ ((exists idx, (idx < 8)%nat /\ dropped backend idx = true) ->
        run_enhanced_validation backend
        = Some (Raise (ValueError "Incomplete results collected"), log st)).
Proof.
  destruct (sweep_lengths (enumerate param_range)) as (st & Hst & Hlen).
  exists st. split; [exact Hst|].
  unfold run_enhanced_validation. rewrite Hst.
  destruct Hlen as (H1 & H2 & H3). unfold values. cbn [forallb].
  rewrite H1, H2, H3.
  assert (Hpoints : List.length (enumerate param_range) = 8%nat) by reflexivity.
  change (List.length param_range) with 8%nat.
  split.
  - intros Hnone.
    assert (Hall : List.length (kept backend (enumerate param_range)) = 8%nat).
    { rewrite <- Hpoints. apply filter_keeps_all. intros [idx param] Hin.
      cbn [fst]. rewrite Hnone; [reflexivity|].
      apply (enumerate_indices param_range idx). now exists param. }
    rewrite Hall. split; [reflexivity|].
    unfold series_lengths. now rewrite H1, H2, H3, Hall.
  - intros (idx & Hidx & Hdropped).
    assert (Hless : List.length (kept backend (enumerate param_range)) <> 8%nat).
    { rewrite <- Hpoints. intros Hall.
      apply (enumerate_indices param_range idx) in Hidx. destruct Hidx as [param Hin].
      pose proof (proj1 (filter_keeps_all _ _) Hall (idx, param) Hin) as Hk.
      cbn [fst] in Hk. rewrite Hdropped in Hk. discriminate. }
    apply Nat.eqb_neq in Hless. now rewrite Hless.
Qed.

End Lengths.

(** C1, at the failing input: when the first parameter gets a garbled
    histogram on each of its three attempts, the sweep ends with the
    exception of the length check instead of returning the series. *)
Theorem garbled_first_incomplete :
  option_map fst (run_enhanced_validation garbled_first)
  = Some (Raise (ValueError "Incomplete results collected")).
Proof. vm_compute. reflexivity. Qed.

(** C5, at the failing input: the first parameter exhausts its three
    attempts on metric errors and gets no entry in any series, sentinel or
    other; the remaining seven parameters are swept and recorded. *)
Theorem garbled_first_no_sentinel :
  exists st,
    sweep garbled_first (enumerate param_range) initial = Some st
    /\ map fst (temporal_correlation (collected st)) = tl param_range
    /\ map fst (falsification (collected st)) = tl param_range
    /\ map fst (beyond_quantum (collected st)) = tl param_range.
Proof. eexists. split; [vm_compute; reflexivity|]. repeat split. Qed.




End ValidationFacts.

(** * Properties of the Result Analyzer *)

Module AnalysisFacts.

Import Analysis.

(** ** Dicts *)

Lemma get_set_same {V : Type} (k : string) (v : V) (d : dict V) :
  get k (set k v d) = Some v.
Proof.
  induction d as [|[k' v'] d IH]; cbn [set get].
  - now rewrite String.eqb_refl.
  - destruct (String.eqb k k') eqn:E; cbn [get]; rewrite E; [reflexivity | exact IH].
Qed.

Lemma get_set_other {V : Type} (k k' : string) (v : V) (d : dict V) :
  k <> k' -> get k (set k' v d) = get k d.
Proof.
  intros Hne. induction d as [|[k0 v0] d IH]; cbn [set get].
  - now apply String.eqb_neq in Hne as ->.
  - destruct (String.eqb_spec k' k0) as [<-|Hk]; cbn [get].
    + now apply String.eqb_neq in Hne as ->.
    + now rewrite IH.
Qed.

Lemma get_in {V : Type} (k : string) (v : V) (d : dict V) :
  get k d = Some v -> In (k, v) d.
Proof.
  induction d as [|[k' v'] d IH]; cbn [get]; [discriminate|].
  destruct (String.eqb_spec k k') as [<-|Hne].
  - intros [= <-]. now left.
  - intros H. right. now apply IH.
Qed.

Lemma get_in_keys {V : Type} (k : string) (v : V) (d : dict V) :
  get k d = Some v -> In k (keys d).
Proof. intros H. apply get_in in H. now apply (in_map fst) in H. Qed.

(** The [for] loop assigns [analysis[k]] from [body k] and nothing else. *)
Lemma for_keys_untouched {V : Type} (body : string -> option V) (k : string)
    (ks : list string) (acc : dict V) :
  ~ In k ks -> get k (for_keys body ks acc) = get k acc.
Proof.
  unfold for_keys. revert acc.
  induction ks as [|k' ks IH]; intros acc Hnin; cbn [fold_left].
  - reflexivity.
  - rewrite IH by (intros H; apply Hnin; now right).
    destruct (body k'); [|reflexivity].
    apply get_set_other. intros ->. apply Hnin. now left.
Qed.

Lemma for_keys_assigned {V : Type} (body : string -> option V) (k : string) (r : V)
    (ks : list string) (acc : dict V) :
  In k ks -> body k = Some r -> get k (for_keys body ks acc) = Some r.
Proof.
  intros Hin Hbody. revert acc Hin.
  induction ks as [|k' ks IH]; intros acc Hin; [contradiction|].
  destruct (in_dec string_dec k ks) as [Hlater|Hnot].
  - now apply IH.
  - destruct Hin as [->|Hin]; [|contradiction].
    change (for_keys body (k :: ks) acc)
      with (for_keys body ks (match body k with
                              | Some r => set k r acc
                              | None => acc
                              end)).
    rewrite for_keys_untouched by assumption.
    rewrite Hbody. apply get_set_same.
Qed.

(** ** The input validation of line 200 *)

Lemma nonempty_false {A : Type} (l : list A) : nonempty l = false <-> l = [].
Proof. destruct l; simpl; split; congruence. Qed.

Lemma some_series_empty (results : dict series) :
  forallb nonempty (map snd results) = false <->
  exists test_type, In (test_type, []) results.
Proof.
  induction results as [|[k d] results IH]; cbn [map forallb snd].
  - split; [discriminate | intros [? []]].
  - rewrite andb_false_iff, IH, nonempty_false. split.
    + intros [->|[t Ht]]; [exists k; now left | exists t; now right].
    + intros [t [[= -> ->]|Ht]]; [now left | right; now exists t].
Qed.

Lemma rejected_iff (results : dict series) :
  negb (nonempty results) || negb (forallb nonempty (map snd results)) = true <->
  results = [] \/ exists test_type, In (test_type, []) results.
Proof.
  rewrite orb_true_iff, !negb_true_iff, nonempty_false, some_series_empty.
  reflexivity.
Qed.

Section Records.

Context {lib : Numerics}.

Lemma build_record_keys (x_vals y_vals : list Q) (r : record) :
  build_record x_vals y_vals = Ok r -> keys r = field_names.
Proof.
  unfold build_record. destruct (regression x_vals y_vals) as [[[[slope i] rv] p] se].
  destruct (mean y_vals); [|discriminate].
  destruct (sem_stage y_vals); [|discriminate].
  now intros [= <-].
Qed.

(** A non-empty series always gets a record, with the seven fields. *)
Lemma analyze_metric_record (data : series) :
  data <> [] ->
  exists r, analyze_metric (Some data) = Some r /\ keys r = field_names.
Proof.
  intros Hne. destruct data as [|pt data]; [congruence|].
  cbn [analyze_metric map List.length Nat.eqb orb].
  destruct (build_record _ _) as [r|e] eqn:E.
  - exists r. split; [reflexivity | exact (build_record_keys _ _ _ E)].
  - exists nan_record. now split.
Qed.

(** When no series is empty the analyzer returns, and the record of a
    metric is the one the loop body computes from its series. *)
Lemma analyze_accepted (results : dict series) (test_type : string) (data : series) :
  forallb nonempty (map snd results) = true ->
  get test_type results = Some data ->
  data <> []
  /\ exists analysis,
       analyze_enhanced_results results = Ok analysis
       /\ get test_type analysis = analyze_metric (Some data).
Proof.
  intros Hall Hget.
  assert (Hne : data <> []).
  { intros ->. apply get_in in Hget.
    assert (forallb nonempty (map snd results) = false) as Hf
      by (apply some_series_empty; now exists test_type).
    congruence. }
  split; [exact Hne|].
  unfold analyze_enhanced_results. rewrite Hall.
  destruct results as [|p results]; [discriminate|].
  cbn [nonempty negb orb]. eexists. split; [reflexivity|].
  destruct (analyze_metric_record data Hne) as (r & Hr & _). rewrite Hr.
  apply for_keys_assigned.
  - exact (get_in_keys _ _ _ Hget).
  - now rewrite Hget.
Qed.

Lemma analyze_metric_nonempty (data : series) :
  data <> [] ->
  analyze_metric (Some data)
  = match build_record (map fst data) (map snd data) with
    | Ok r => Some r
    | Raise _ => Some nan_record
    end.
Proof. destruct data; [congruence | reflexivity]. Qed.

Lemma complete_forallb (results : dict series) :
  complete results -> forallb nonempty (map snd results) = true.
Proof.
  intros Hc. destruct (forallb nonempty (map snd results)) eqn:E; [reflexivity|].
  apply some_series_empty in E. destruct E as [t Ht]. now destruct (Hc t [] Ht).
Qed.

(** The mapping with an empty series is rejected, whatever the numeric
    routines do: the validation does not call them. *)
Lemma one_empty_rejected :
  analyze_enhanced_results one_empty = Raise (ValueError "No valid results to analyze").
Proof. reflexivity. Qed.

End Records.

(** C4 fails as stated: one series is non-empty, the other is empty, and
    the analyzer raises instead of skipping the empty one. *)
Lemma skip_empty_claim_fails : ~ skip_empty_claim constant_series_numerics.
Proof.
  intros H. destruct (H one_empty eq_refl) as (analysis & Hok & _).
  rewrite one_empty_rejected in Hok. discriminate.
Qed.

(** C4, amended: the analyzer raises "No valid results to analyze" exactly
    when the mapping is empty or some series in it is empty; on any other
    mapping it returns, with a record of seven fields for every metric. *)
Theorem fatal_iff_some_series_empty (lib : Numerics) (results : dict series) :
  (analyze_enhanced_results results = Raise (ValueError "No valid results to analyze")
   <-> results = [] \/ exists test_type, In (test_type, []) results)
  /\ (results <> [] -> complete results ->
      exists analysis,
        analyze_enhanced_results results = Ok analysis
        /\ forall test_type data,
             get test_type results = Some data ->
             exists r, get test_type analysis = Some r /\ keys r = field_names).
Proof.
  split.
  - rewrite <- rejected_iff. unfold analyze_enhanced_results.
    destruct (negb (nonempty results) || negb (forallb nonempty (map snd results)));
      split; (reflexivity || discriminate).
  - intros Hne Hc. pose proof (complete_forallb results Hc) as Hall.
    assert (Hok : exists analysis, analyze_enhanced_results results = Ok analysis).
    { unfold analyze_enhanced_results. rewrite Hall.
      destruct results; [congruence|]. now eexists. }
    destruct Hok as [analysis Hok]. exists analysis. split; [exact Hok|].
    intros test_type data Hget.
    destruct (analyze_accepted results test_type data Hall Hget)
      as (Hdata & analysis' & Hok' & Hrec).
    assert (analysis' = analysis) as -> by congruence.
    destruct (analyze_metric_record data Hdata) as (r & Hr & Hkeys).
    exists r. split; congruence.
Qed.

Lemma one_point_complete : complete one_point.
Proof. intros t d [[= <- <-]|[]]. discriminate. Qed.

(** [fatal_iff_some_series_empty] at a mapping of one metric measured
    once. *)
Lemma fatal_iff_some_series_empty_witness :
  exists analysis,
    @analyze_enhanced_results constant_series_numerics one_point = Ok analysis
    /\ forall test_type data,
         get test_type one_point = Some data ->
         exists r, get test_type analysis = Some r /\ keys r = field_names.
Proof.
  apply (proj2 (fatal_iff_some_series_empty constant_series_numerics one_point)).
  - discriminate.
  - exact one_point_complete.
Defined.

(** C7 fails as stated: the metric has a single entry, but another series
    of the mapping is empty and the analyzer raises. *)
Lemma single_point_claim_fails : ~ single_point_claim constant_series_numerics.
Proof.
  intros H.
  destruct (H one_empty "falsification" [(1 # 10, 1 # 2)]%Q eq_refl) as (a & r & Hok & _).
  - discriminate.
  - simpl. lia.
  - rewrite one_empty_rejected in Hok. discriminate.
Qed.

(** C7, amended: when no series of the mapping is empty, a metric whose
    series has fewer than two entries gets a record, and the standard
    error in it is the undefined sentinel. *)
Theorem single_point_sem_undefined (lib : Numerics) (results : dict series)
    (test_type : string) (data : series) :
  complete results ->
  get test_type results = Some data ->
  (List.length data < 2)%nat ->
  exists analysis r,
    analyze_enhanced_results results = Ok analysis
    /\ get test_type analysis = Some r
    /\ get "sem" r = Some (Scalar nan).
Proof.
  intros Hc Hget Hlen.
  destruct (analyze_accepted results test_type data (complete_forallb _ Hc) Hget)
    as (Hdata & analysis & Hok & Hrec).
  destruct data as [|[x y] [|pt data]]; [congruence | | simpl in Hlen; lia].
  exists analysis. rewrite Hrec.
  cbn [analyze_metric map List.length Nat.eqb orb fst snd].
  unfold build_record, sem_stage. cbn [List.length Nat.ltb Nat.leb].
  destruct (regression [x] [y]) as [[[[slope i] rv] p] se].
  destruct (mean [y]); cbn [bind]; eexists; (split; [exact Hok|]); split; reflexivity.
Qed.

(** [single_point_sem_undefined] at a mapping of one metric measured
    once. *)
Lemma single_point_sem_undefined_witness :
  exists analysis r,
    @analyze_enhanced_results constant_series_numerics one_point = Ok analysis
    /\ get "falsification" analysis = Some r
    /\ get "sem" r = Some (Scalar nan).
Proof.
  apply (single_point_sem_undefined constant_series_numerics one_point
           "falsification" [(1 # 10, 1 # 2)]%Q).
  - exact one_point_complete.
  - reflexivity.
  - simpl. lia.
Defined.

(** C9 fails as stated: the metric has a non-empty series, but another
    series of the mapping is empty and no record is returned at all. *)
Lemma seven_fields_claim_fails : ~ seven_fields_claim constant_series_numerics.
Proof.
  intros H.
  destruct (H one_empty "falsification" [(1 # 10, 1 # 2)]%Q eq_refl) as (a & r & Hok & _).
  - discriminate.
  - rewrite one_empty_rejected in Hok. discriminate.
Qed.

(** C9, amended: when no series of the mapping is empty, every metric gets
    a record with the seven fields.  When the mean and the standard error
    are computed, each other field is decided by its own stage alone: the
    regression fields are the undefined sentinel when the regression
    raises and its results otherwise, and the same for the peaks (empty
    list) and for the dominant frequency; when the mean or the standard
    error raises, the record is the one with every field undefined. *)
Theorem stage_failures_are_isolated (lib : Numerics) (results : dict series)
    (test_type : string) (data : series) :
  complete results ->
  get test_type results = Some data ->
  let x_vals := map fst data in
  let y_vals := map snd data in
  exists analysis r,
    analyze_enhanced_results results = Ok analysis
    /\ get test_type analysis = Some r
    /\ keys r = field_names
    /\ ((exists e, mean y_vals = Raise e) \/ (exists e, sem_stage y_vals = Raise e) ->
        r = nan_record)
    /\ forall m s,
         mean y_vals = Ok m -> sem_stage y_vals = Ok s ->
         get "mean" r = Some (Scalar m)
         /\ get "sem" r = Some (Scalar s)
         /\ ((exists e, linregress x_vals y_vals = Raise e) ->
             get "r_squared" r = Some (Scalar nan)
             /\ get "p_value" r = Some (Scalar nan)
             /\ get "slope" r = Some (Scalar nan))
         /\ (forall slope intercept r_value p_value std_err,
               linregress x_vals y_vals = Ok (slope, intercept, r_value, p_value, std_err) ->
               get "r_squared" r = Some (Scalar (float_or_nan r_value (square r_value)))
               /\ get "p_value" r = Some (Scalar (float_or_nan p_value p_value))
               /\ get "slope" r = Some (Scalar (float_or_nan slope slope)))
         /\ ((exists e, peak_stage y_vals = Raise e) -> get "peaks" r = Some (Values []))
         /\ (forall l, peak_stage y_vals = Ok l -> get "peaks" r = Some (Values l))
         /\ ((exists e, frequency_stage y_vals = Raise e) ->
             get "main_frequency" r = Some (Scalar nan))
         /\ (forall f, frequency_stage y_vals = Ok f ->
                       get "main_frequency" r = Some (Scalar (float_or_nan f f))).
Proof.
  intros Hc Hget x_vals y_vals.
  destruct (analyze_accepted results test_type data (complete_forallb _ Hc) Hget)
    as (Hdata & analysis & Hok & Hrec).
  rewrite (analyze_metric_nonempty data Hdata) in Hrec.
  fold x_vals y_vals in Hrec. exists analysis.
  unfold build_record, regression, peak_values, main_freq in Hrec.
  destruct (linregress x_vals y_vals) as [[[[[slope i] rv] p] se]|e] eqn:Hlr;
    destruct (mean y_vals) as [m0|e0] eqn:Hm;
    cbn [bind] in Hrec;
    try destruct (sem_stage y_vals) as [s0|e1] eqn:Hs;
    cbn [bind] in Hrec;
    eexists; (split; [exact Hok|]); (split; [exact Hrec|]);
    (split; [reflexivity|]); (split; [try reflexivity|]);
    try (intros m s; discriminate);
    try (intros [[? ?]|[? ?]]; discriminate).
  all: intros m s [= <-] [= <-].
  all: split; [reflexivity|]; split; [reflexivity|].
  all: split;
    [first [intros [? ?]; discriminate | intros _; repeat split; reflexivity]|].
  all: split;
    [first [intros ? ? ? ? ? [= <- <- <- <- <-]; repeat split; reflexivity
           | intros; discriminate]|].
  all: split; [intros [e' He']; rewrite He'; reflexivity|].
  all: split; [intros l Hl; rewrite Hl; reflexivity|].
  all: split; [intros [e' He']; rewrite He'; reflexivity
              | intros f Hf; rewrite Hf; reflexivity].
Qed.

Lemma repeated_point_complete : complete repeated_point.
Proof. intros t d [[= <- <-]|[]]. discriminate. Qed.

(** [stage_failures_are_isolated] at a series of two identical points: the
    regression raises (all x equal) and only its fields are undefined. *)
Lemma stage_failures_are_isolated_witness :
  exists analysis r,
    @analyze_enhanced_results constant_series_numerics repeated_point = Ok analysis
    /\ get "falsification" analysis = Some r
    /\ keys r = field_names
    /\ get "r_squared" r = Some (Scalar nan)
    /\ get "peaks" r = Some (Values [])
    /\ get "main_frequency" r = Some (Scalar (num (-1 # 2))).
Proof.
  destruct (stage_failures_are_isolated constant_series_numerics repeated_point
              "falsification" [(1 # 10, 1 # 2); (1 # 10, 1 # 2)]%Q
              repeated_point_complete eq_refl)
    as (analysis & r & Hok & Hrec & Hkeys & _ & Hfields).
  destruct (Hfields _ _ eq_refl eq_refl)
    as (_ & _ & Hregression & _ & _ & Hpeaks & _ & Hfrequency).
  exists analysis, r. repeat split; try assumption.
  - apply Hregression. eexists. reflexivity.
  - apply (Hpeaks []). reflexivity.
  - apply (Hfrequency (num (-1 # 2))). reflexivity.
Defined.

End AnalysisFacts.

(** * More on the Metric Extractor *)

Module HistogramFacts.

Import Metrics Histograms MetricFacts.

(** ** [int(x)] and the keys *)

Lemma int_of_char_digit (c : ascii) :
  int_of_char c = (if is_digit c then Ok (Z.of_nat (nat_of_ascii c - 48))
                   else Raise invalid_literal).
Proof. reflexivity. Qed.

Lemma comprehension_digits (cs : list ascii) :
  if forallb is_digit cs
  then exists bits, comprehension int_of_char cs = Ok bits
                    /\ List.length bits = List.length cs
  else comprehension int_of_char cs = Raise invalid_literal.
Proof.
  induction cs as [|c cs IH]; cbn [forallb comprehension].
  - now exists [].
  - rewrite int_of_char_digit. destruct (is_digit c); cbn [andb bind]; [|reflexivity].
    destruct (forallb is_digit cs).
    + destruct IH as (bits & -> & Hlen). cbn [bind]. eexists. split; [reflexivity|].
      cbn [List.length]. congruence.
    + now rewrite IH.
Qed.

Lemma bits_of_digits (s : string) :
  if all_digits s
  then exists bits, bits_of s = Ok bits /\ List.length bits = String.length s
  else bits_of s = Raise invalid_literal.
Proof.
  unfold all_digits, bits_of.
  pose proof (comprehension_digits (list_ascii_of_string s)) as H.
  destruct (forallb is_digit (list_ascii_of_string s)); [|exact H].
  destruct H as (bits & H & Hlen). exists bits. split; [exact H|].
  now rewrite Hlen, length_list_ascii.
Qed.

(** ** The window loops in closed form *)

Lemma scan_fold_hits (test : list Z -> nat -> bool) (bits : list Z) (count : Z)
    (l : list nat) (acc : Z) :
  fold_left (fun acc i => if test bits i then acc + count else acc) l acc
  = acc + Z.of_nat (List.length (filter (test bits) l)) * count.
Proof.
  revert acc. induction l as [|i l IH]; intros acc; cbn [fold_left filter].
  - cbn. lia.
  - rewrite IH. destruct (test bits i); cbn [List.length]; lia.
Qed.

Lemma scan_windows_hits (test : list Z -> nat -> bool) (k : nat) (bits : list Z)
    (count acc : Z) :
  scan_windows test k bits count acc = acc + hits test k bits * count.
Proof. apply scan_fold_hits. Qed.

Lemma window_loop (test : list Z -> nat -> bool) (k : nat) (counts : histogram)
    (acc : Z) :
  for_each counts
    (fun acc '(state, count) =>
       bits <- bits_of state ;; Ok (scan_windows test k bits count acc)) acc
  = if digit_keys counts then Ok (acc + weighted_hits test k counts)
    else Raise invalid_literal.
Proof.
  revert acc. induction counts as [|[s c] counts IH]; intros acc;
    cbn [for_each digit_keys forallb weighted_hits fold_right fst snd].
  - f_equal. lia.
  - unfold key_hits. pose proof (bits_of_digits s) as Hs.
    destruct (all_digits s); cbn [andb].
    + destruct Hs as (bits & -> & _). cbn [bind].
      rewrite IH, scan_windows_hits. fold (digit_keys counts).
      destruct (digit_keys counts); [|reflexivity].
      f_equal. unfold weighted_hits. rewrite <- Z.add_assoc. reflexivity.
    + now rewrite Hs.
Qed.

Lemma temporal_closed_form (counts : histogram) :
  _calculate_temporal_correlation counts = window_metric triple_equal 2 counts.
Proof.
  unfold _calculate_temporal_correlation, window_metric.
  destruct counts as [|p counts]; [reflexivity|]. cbv zeta.
  destruct (total_count (p :: counts) =? 0); [reflexivity|].
  rewrite window_loop. now destruct (digit_keys (p :: counts)).
Qed.

Lemma beyond_closed_form (counts : histogram) :
  _calculate_beyond_quantum_metric counts = window_metric alternating 3 counts.
Proof.
  unfold _calculate_beyond_quantum_metric, window_metric.
  destruct counts as [|p counts]; [reflexivity|]. cbv zeta.
  destruct (total_count (p :: counts) =? 0); [reflexivity|].
  rewrite window_loop. now destruct (digit_keys (p :: counts)).
Qed.

Lemma digit_keys_false (counts : histogram) :
  digit_keys counts = false <->
  exists s c, In (s, c) counts /\ all_digits s = false.
Proof.
  unfold digit_keys. induction counts as [|[s c] counts IH]; cbn [forallb fst].
  - split; [discriminate | intros (? & ? & [] & _)].
  - rewrite andb_false_iff, IH. split.
    + intros [Hs|(s' & c' & Hin & Hs)].
      * exists s, c. split; [now left | exact Hs].
      * exists s', c'. split; [now right | exact Hs].
    + intros (s' & c' & [[= <- <-]|Hin] & Hs); [now left|].
      right. now exists s', c'.
Qed.




(** ** Keys shorter than the window *)

Lemma hits_short (test : list Z -> nat -> bool) (k : nat) (bits : list Z) :
  (List.length bits <= k)%nat -> hits test k bits = 0.
Proof.
  intros H. unfold hits. now replace (List.length bits - k)%nat with 0%nat by lia.
Qed.

Lemma weighted_hits_short (test : list Z -> nat -> bool) (k : nat)
    (counts : histogram) :
  (forall s c, In (s, c) counts -> (String.length s <= k)%nat) ->
  weighted_hits test k counts = 0.
Proof.
  induction counts as [|[s c] counts IH]; intros H; cbn [weighted_hits fold_right fst snd].
  - reflexivity.
  - fold (weighted_hits test k counts). rewrite IH by (intros; eapply H; right; eassumption).
    unfold key_hits. pose proof (bits_of_digits s) as Hs.
    destruct (all_digits s).
    + destruct Hs as (bits & -> & Hlen). rewrite hits_short; [reflexivity|].
      rewrite Hlen. apply (H s c). now left.
    + now rewrite Hs.
Qed.

Lemma window_metric_short (test : list Z -> nat -> bool) (k : nat)
    (counts : histogram) :
  (forall s c, In (s, c) counts -> all_digits s = true /\ (String.length s <= k)%nat) ->
  returns (window_metric test k counts) 0.
Proof.
  intros H. unfold window_metric.
  destruct counts as [|p counts]; [reflexivity|].
  destruct (total_count (p :: counts) =? 0); [reflexivity|].
  destruct (digit_keys (p :: counts)) eqn:E.
  - rewrite weighted_hits_short by (intros; eapply H; eassumption).
    cbn [returns]. unfold Qdiv. now rewrite Qmult_0_l.
  - apply digit_keys_false in E. destruct E as (s & c & Hin & Hs).
    destruct (H s c Hin). congruence.
Qed.

(** Keys too short to hold a window count for nothing: with keys of digits
    of fewer than 3 characters the temporal correlation is 0.0, with fewer
    than 4 the beyond-quantum metric is 0.0, whatever the counts. *)
Theorem short_keys_score_zero (counts : histogram) :
  ((forall s c, In (s, c) counts -> all_digits s = true /\ (String.length s < 3)%nat) ->
   returns (_calculate_temporal_correlation counts) 0)
  /\ ((forall s c, In (s, c) counts -> all_digits s = true /\ (String.length s < 4)%nat) ->
      returns (_calculate_beyond_quantum_metric counts) 0).
Proof.
  rewrite temporal_closed_form, beyond_closed_form.
  split; intros H; apply window_metric_short; intros s c Hin;
    destruct (H s c Hin); split; (assumption || lia).
Qed.

Lemma short_keys_score_zero_witness :
  returns (_calculate_temporal_correlation short_keys) 0
  /\ returns (_calculate_beyond_quantum_metric short_keys) 0.
Proof.
  assert (H : forall s c, In (s, c) short_keys ->
                          all_digits s = true /\ (String.length s < 3)%nat).
  { intros s c [[= <- <-]|[[= <- <-]|[]]]; split; (reflexivity || (simpl; lia)). }
  split.
  - apply (proj1 (short_keys_score_zero short_keys)), H.
  - apply (proj2 (short_keys_score_zero short_keys)).
    intros s c Hin. destruct (H s c Hin). split; [assumption | lia].
Defined.

(** ** The order of the entries *)







(** ** Counts up to a factor *)

Lemma total_count_scale (k : Z) (counts : histogram) :
  total_count (scale k counts) = k * total_count counts.
Proof.
  induction counts as [|[s c] counts IH].
  - unfold total_count. cbn. lia.
  - cbn [scale map fst snd]. fold (scale k counts).
    rewrite !total_count_cons, IH. lia.
Qed.

Lemma weighted_hits_scale (test : list Z -> nat -> bool) (w : nat) (k : Z)
    (counts : histogram) :
  weighted_hits test w (scale k counts) = k * weighted_hits test w counts.
Proof.
  unfold weighted_hits, scale.
  induction counts as [|p counts IH]; cbn [map fold_right fst snd].
  - lia.
  - rewrite IH. lia.
Qed.

Lemma digit_keys_scale (k : Z) (counts : histogram) :
  digit_keys (scale k counts) = digit_keys counts.
Proof.
  unfold digit_keys, scale.
  induction counts as [|p counts IH]; cbn [map forallb fst]; congruence.
Qed.

Lemma ratio_scale (k a t : Z) :
  k <> 0 -> t <> 0 ->
  (inject_Z (k * a) / inject_Z (k * t) == inject_Z a / inject_Z t)%Q.
Proof.
  intros Hk Ht. rewrite !inject_Z_mult.
  assert (~ inject_Z k == 0)%Q.
  { change 0%Q with (inject_Z 0). now rewrite inject_Z_injective. }
  assert (~ inject_Z t == 0)%Q.
  { change 0%Q with (inject_Z 0). now rewrite inject_Z_injective. }
  field. now split.
Qed.

Lemma window_metric_scale (test : list Z -> nat -> bool) (w : nat) (k : Z)
    (counts : histogram) :
  k <> 0 ->
  same_value (window_metric test w (scale k counts)) (window_metric test w counts).
Proof.
  intros Hk. unfold window_metric.
  rewrite total_count_scale, digit_keys_scale, weighted_hits_scale.
  destruct counts as [|p counts]; [cbn; reflexivity|].
  cbn [scale map].
  destruct (Z.eqb_spec (total_count (p :: counts)) 0) as [Hz|Hz].
  - rewrite Hz, Z.mul_0_r. cbn. reflexivity.
  - destruct (Z.eqb_spec (k * total_count (p :: counts)) 0) as [Hkz|_]; [nia|].
    destruct (digit_keys (p :: counts)); cbn [same_value]; [|reflexivity].
    now apply ratio_scale.
Qed.

(** Only the proportions of the counts matter to the window metrics:
    multiplying every count by the same non-zero integer leaves the
    temporal correlation and the beyond-quantum metric as they are. *)
Theorem window_metrics_scale_free (k : Z) (counts : histogram) :
  k <> 0 ->
  same_value (_calculate_temporal_correlation (scale k counts))
             (_calculate_temporal_correlation counts)
  /\ same_value (_calculate_beyond_quantum_metric (scale k counts))
                (_calculate_beyond_quantum_metric counts).
Proof.
  intros Hk. rewrite !temporal_closed_form, !beyond_closed_form.
  split; now apply window_metric_scale.
Qed.

Lemma window_metrics_scale_free_witness :
  same_value (_calculate_temporal_correlation (scale 10 two_outcomes))
             (_calculate_temporal_correlation two_outcomes)
  /\ same_value (_calculate_beyond_quantum_metric (scale 10 two_outcomes))
                (_calculate_beyond_quantum_metric two_outcomes).
Proof.
  apply (window_metrics_scale_free 10 two_outcomes). discriminate.
Defined.

(** ** When the falsification metric raises *)






(** ** Exchanging 0 and 1 *)
















End HistogramFacts.

(** * More on the Validation Loop *)

Module SweepFacts.

Import Metrics Validation Sweeps MetricFacts ValidationFacts.

(** The three attempts of a parameter, case by case. *)
Ltac attempts :=
  unfold max_retries; cbn [retry_loop Nat.ltb Nat.leb]; unfold retry_delay;
  repeat (first
            [ match goal with
              | |- context [fetch_counts (?b ?i 0%nat)] =>
                destruct (fetch_counts (b i 0%nat)) as [?|?]
              end
            | match goal with
              | |- context [compute_metrics ?c] =>
                destruct (compute_metrics c) as [[[? ?] ?]|]
              end
            | match goal with
              | |- context [fetch_counts (?b ?i 1%nat)] =>
                destruct (fetch_counts (b i 1%nat)) as [?|?]
              end
            | match goal with
              | |- context [fetch_counts ?r] => destruct (fetch_counts r) as [?|?]
              end ];
          cbv beta iota).

(** ** The cost of a run *)

Lemma submissions_app (l l' : list event) :
  submissions (l ++ l') = (submissions l + submissions l')%nat.
Proof. unfold submissions. now rewrite filter_app, length_app. Qed.

Lemma slept_app (l l' : list event) : slept (l ++ l') = slept l + slept l'.
Proof.
  unfold slept. induction l as [|e l IH]; cbn [app fold_right]; [lia|].
  rewrite IH. lia.
Qed.

(** One parameter: one to three jobs, and a backoff only before a further
    job. *)
Lemma point_cost (backend : nat -> nat -> response) (idx : nat) (param : Q) :
  (1 <= submissions (attempt_events backend idx param) <= 3)%nat
  /\ 0 <= slept (attempt_events backend idx param)
       <= 5 * (Z.of_nat (submissions (attempt_events backend idx param)) - 1).
Proof.
  unfold attempt_events. attempts; cbn; lia.
Qed.

Lemma sweep_cost (backend : nat -> nat -> response) (points : list (nat * Q)) :
  let events := flat_map (fun '(idx, param) =>
                            EvParameter idx :: attempt_events backend idx param
                              ++ [EvSleep 2]) points in
  let n := List.length points in
  (n <= submissions events <= 3 * n)%nat
  /\ 2 * Z.of_nat n <= slept events
       <= 2 * Z.of_nat n + 5 * (Z.of_nat (submissions events) - Z.of_nat n).
Proof.
  induction points as [|[idx param] points IH]; cbv zeta in *.
  - cbn. lia.
  - cbn [flat_map List.length].
    change (EvParameter idx :: attempt_events backend idx param ++ [EvSleep 2])
      with ([EvParameter idx] ++ attempt_events backend idx param ++ [EvSleep 2]).
    rewrite !submissions_app, !slept_app.
    pose proof (point_cost backend idx param) as Hp.
    change (submissions [EvParameter idx]) with 0%nat.
    change (submissions [EvSleep 2]) with 0%nat.
    change (slept [EvParameter idx]) with 0.
    change (slept [EvSleep 2]) with 2.
    lia.
Qed.

(** A run sends between 8 and 24 jobs and sleeps between 16 and 96
    seconds: 2 per parameter, and 5 more at most for every job beyond the
    first of a parameter. *)
Theorem run_cost (backend : nat -> nat -> response) :
  exists r events,
    run_enhanced_validation backend = Some (r, events)
    /\ (8 <= submissions events <= 24)%nat
    /\ 16 <= slept events <= 16 + 5 * (Z.of_nat (submissions events) - 8).
Proof.
  assert (Hlog : exists r st, run_enhanced_validation backend = Some (r, log st)
                              /\ sweep backend (enumerate param_range) initial = Some st).
  { unfold run_enhanced_validation.
    destruct (sweep_total backend (enumerate param_range) initial) as [st Hst].
    rewrite Hst. destruct (forallb _ _); eexists; eexists; split; reflexivity || eassumption. }
  destruct Hlog as (r & st & Hrun & Hsweep).
  exists r, (log st). split; [exact Hrun|].
  rewrite (sweep_log backend _ _ Hsweep).
  pose proof (sweep_cost backend (enumerate param_range)) as H. cbv zeta in H.
  change (List.length (enumerate param_range)) with 8%nat in H.
  lia.
Qed.

(** ** The parameter column of the series *)

Lemma point_columns (backend : nat -> nat -> response) (idx : nat) (param : Q) :
  exists d,
    retry_loop backend max_retries idx param 0 initial = Some d
    /\ columns (collected d) (if dropped backend idx then [] else [param]).
Proof.
  unfold dropped, attempt, columns. attempts; eexists; (split; [reflexivity|]);
    repeat split.
Qed.

Lemma columns_extend (st d : state) (ps qs : list Q) :
  columns (collected st) ps -> columns (collected d) qs ->
  columns (collected (extend st d)) (ps ++ qs).
Proof.
  unfold columns, extend. cbn. rewrite !map_app.
  intros (-> & -> & ->) (-> & -> & ->). now repeat split.
Qed.

Lemma sweep_columns (backend : nat -> nat -> response) (points : list (nat * Q)) :
  exists d,
    sweep backend points initial = Some d
    /\ columns (collected d) (map snd (kept backend points)).
Proof.
  induction points as [|[idx param] points IH]; cbn [sweep].
  - exists initial. now repeat split.
  - rewrite retry_loop_frame.
    destruct (point_columns backend idx param) as (d0 & -> & Hd0). cbn [option_map].
    rewrite <- (extend_initial (emit (EvSleep 2) _)), sweep_extend.
    destruct IH as (d1 & -> & Hd1). cbn [option_map].
    eexists. split; [reflexivity|].
    replace (map snd (kept backend ((idx, param) :: points)))
      with ((if dropped backend idx then [] else [param])
              ++ map snd (kept backend points))
      by (unfold kept; cbn [filter fst]; now destruct (dropped backend idx)).
    apply columns_extend; [|exact Hd1].
    destruct Hd0 as (H1 & H2 & H3). unfold columns, extend, emit. cbn.
    now rewrite H1, H2, H3.
Qed.

Lemma filter_all {A : Type} (f : A -> bool) (l : list A) :
  List.length (filter f l) = List.length l -> filter f l = l.
Proof.
  induction l as [|a l IH]; cbn [filter]; [reflexivity|].
  destruct (f a); cbn [List.length]; intros H.
  - f_equal. apply IH. lia.
  - pose proof (filter_length_le f l). lia.
Qed.

Lemma returned_columns (backend : nat -> nat -> response) (r : results)
    (events : list event) :
  run_enhanced_validation backend = Some (Ok r, events) -> columns r param_range.
Proof.
  destruct (sweep_columns backend (enumerate param_range)) as (st & Hst & Hcols).
  unfold run_enhanced_validation. rewrite Hst.
  destruct (forallb _ _) eqn:Hcheck; [|discriminate]. intros [= <- _].
  cbn [values forallb] in Hcheck. apply andb_true_iff in Hcheck.
  destruct Hcheck as [Hlen _]. apply Nat.eqb_eq in Hlen.
  destruct Hcols as (H1 & H2 & H3).
  assert (Hkept : kept backend (enumerate param_range) = enumerate param_range).
  { apply filter_all. fold (kept backend (enumerate param_range)).
    transitivity (List.length (map snd (kept backend (enumerate param_range))));
      [now rewrite length_map|].
    rewrite <- H1, length_map, Hlen. reflexivity. }
  rewrite Hkept in H1, H2, H3. now repeat split.
Qed.

(** The three series always list the same parameters, in the order of the
    sweep and each at most once: those of the parameters that were not
    dropped.  When the method returns, that is the whole parameter range. *)
Theorem series_share_parameters (backend : nat -> nat -> response) :
  exists st,
    sweep backend (enumerate param_range) initial = Some st
    /\ columns (collected st) (map snd (kept backend (enumerate param_range)))
    /\ forall r events,
         run_enhanced_validation backend = Some (Ok r, events) ->
         columns r param_range.
Proof.
  destruct (sweep_columns backend (enumerate param_range)) as (st & Hst & Hcols).
  exists st. split; [exact Hst|]. split; [exact Hcols|].
  apply returned_columns.
Qed.

Lemma series_share_parameters_witness :
  exists r events,
    run_enhanced_validation steady = Some (Ok r, events) /\ columns r param_range.
Proof.
  destruct (series_share_parameters steady) as (st & _ & _ & H).
  assert (Hrun : exists r events, run_enhanced_validation steady = Some (Ok r, events))
    by (eexists; eexists; vm_compute; reflexivity).
  destruct Hrun as (r & events & Hrun).
  exists r, events. split; [exact Hrun | exact (H r events Hrun)].
Defined.

(** ** The first success ends the attempts *)

(** When the attempts before attempt [n] fail and attempt [n] succeeds, the
    jobs 0 to [n] are submitted and no other, and the entries appended are
    the metrics of attempt [n]. *)
Theorem first_success_wins (backend : nat -> nat -> response) (idx : nat)
    (param : Q) (st : state) (n : nat) (counts : histogram) (c f b : Q) :
  (n < max_retries)%nat ->
  (forall m, (m < n)%nat -> failed backend idx m) ->
  fetch_counts (backend idx n) = Ok counts ->
  compute_metrics counts = Ok (c, f, b) ->
  exists st',
    retry_loop backend max_retries idx param 0 st = Some st'
    /\ collected st' = collected (store param c f b st)
    /\ filter is_submit (log st')
       = filter is_submit (log st) ++ map (EvSubmit idx) (seq 0 (S n)).
Proof.
  intros Hn Hfailed Hfetch Hmetrics.
  unfold max_retries in *. cbn [retry_loop Nat.ltb Nat.leb].
  destruct n as [|[|[|n]]]; [| | |lia].
  - rewrite Hfetch, Hmetrics. eexists. split; [reflexivity|]. split; [reflexivity|].
    cbn [store emit log]. now rewrite filter_app.
  - destruct (Hfailed 0%nat ltac:(lia)) as [[e0 H0]|(c0 & e0 & H0 & M0)];
      rewrite H0, ?M0, Hfetch, Hmetrics; eexists;
      (split; [reflexivity|]); (split; [reflexivity|]);
      cbn [store emit log]; rewrite !filter_app; cbn; now rewrite <- ?app_assoc.
  - destruct (Hfailed 0%nat ltac:(lia)) as [[e0 H0]|(c0 & e0 & H0 & M0)];
      destruct (Hfailed 1%nat ltac:(lia)) as [[e1 H1]|(c1 & e1 & H1 & M1)];
      rewrite H0, ?M0, H1, ?M1, Hfetch, Hmetrics; eexists;
      (split; [reflexivity|]); (split; [reflexivity|]);
      cbn [store emit log]; rewrite !filter_app; cbn; now rewrite <- ?app_assoc.
Qed.

Lemma first_success_wins_witness :
  exists st',
    retry_loop second_try max_retries 2 (45 # 70) 0 initial = Some st'
    /\ collected st'
       = collected (store (45 # 70) (6000 # 1000) (8000 # 16000) (0 # 1000) initial)
    /\ filter is_submit (log st')
       = filter is_submit (log initial) ++ map (EvSubmit 2) (seq 0 2).
Proof.
  apply (first_success_wins second_try 2 (45 # 70) initial 1 [("00000000", 1000)]).
  - unfold max_retries. lia.
  - intros m Hm. assert (m = 0%nat) as -> by lia. left. eexists. reflexivity.
  - reflexivity.
  - reflexivity.
Defined.

(** ** A backend that answers *)








(** [returns_iff_nothing_dropped] at two backends: one that drops the first
    parameter and one that drops none. *)
Lemma returns_iff_nothing_dropped_witness :
  (exists st,
     run_enhanced_validation garbled_first
     = Some (Raise (ValueError "Incomplete results collected"), log st))
  /\ (exists st,
        run_enhanced_validation slow_start = Some (Ok (collected st), log st)
        /\ series_lengths st 8).
Proof.
  split.
  - destruct (returns_iff_nothing_dropped garbled_first) as (st & _ & _ & H).
    exists st. apply H. exists 0%nat. split; [lia | reflexivity].
  - destruct (returns_iff_nothing_dropped slow_start) as (st & _ & H & _).
    exists st. apply H. intros idx Hidx.
    do 8 (destruct idx as [|idx]; [reflexivity|]). lia.
Defined.

(** ** A backend that never answers *)

Lemma unreachable_point (backend : nat -> nat -> response) (idx : nat) (param : Q) :
  (forall n, (n < max_retries)%nat -> failed_at_execution backend idx n) ->
  retry_loop backend max_retries idx param 0 initial
  = Some {| collected := {| falsification := [(param, 0%Q)];
                            beyond_quantum := [(param, 0%Q)];
                            temporal_correlation := [(param, 0%Q)] |};
            log := [EvSubmit idx 0; EvSleep 5; EvSubmit idx 1; EvSleep 5;
                    EvSubmit idx 2] |}.
Proof.
  intros Hdown. unfold max_retries in *.
  destruct (Hdown 0%nat ltac:(lia)) as [e0 H0].
  destruct (Hdown 1%nat ltac:(lia)) as [e1 H1].
  destruct (Hdown 2%nat ltac:(lia)) as [e2 H2].
  cbn [retry_loop Nat.ltb Nat.leb]. now rewrite H0, H1, H2.
Qed.

Lemma unreachable_points (backend : nat -> nat -> response)
    (points : list (nat * Q)) :
  (forall idx param n, In (idx, param) points -> (n < max_retries)%nat ->
                       failed_at_execution backend idx n) ->
  exists d,
    sweep backend points initial = Some d
    /\ collected d = sentinels (map snd points)
    /\ log d = flat_map (fun p => [EvParameter (fst p);
                                   EvSubmit (fst p) 0; EvSleep 5;
                                   EvSubmit (fst p) 1; EvSleep 5;
                                   EvSubmit (fst p) 2; EvSleep 2]) points.
Proof.
  induction points as [|[idx param] points IH]; intros Hdown; cbn [sweep].
  - now exists initial.
  - rewrite retry_loop_frame, unreachable_point
      by (intros n Hn; apply (Hdown idx param n); [now left | exact Hn]).
    cbn [option_map].
    rewrite <- (extend_initial (emit (EvSleep 2) _)), sweep_extend.
    destruct IH as (d1 & -> & Hc1 & Hlog1);
      [intros i p n Hin; apply (Hdown i p n); now right|].
    cbn [option_map]. eexists. split; [reflexivity|].
    unfold extend, emit, sentinels in *. cbn. rewrite Hc1, Hlog1. now split.
Qed.

(** When every job fails in the execution stage, the method still returns:
    every series holds the sentinel (param, 0.0) for each of the eight
    parameters, after 24 jobs and 96 seconds of sleep. *)
Theorem unreachable_run (backend : nat -> nat -> response) :
  (forall idx n, (idx < 8)%nat -> (n < max_retries)%nat ->
                 failed_at_execution backend idx n) ->
  exists events,
    run_enhanced_validation backend = Some (Ok (sentinels param_range), events)
    /\ submissions events = 24%nat
    /\ slept events = 96.
Proof.
  intros Hdown.
  destruct (unreachable_points backend (enumerate param_range))
    as (d & Hsweep & Hcollected & Hlog).
  { intros idx param n Hin. apply Hdown.
    apply (enumerate_indices param_range idx). now exists param. }
  exists (log d). unfold run_enhanced_validation. rewrite Hsweep, Hcollected.
  split; [reflexivity|]. rewrite Hlog. split; reflexivity.
Qed.

Lemma unreachable_run_witness :
  exists events,
    run_enhanced_validation out_of_service
    = Some (Ok (sentinels param_range), events)
    /\ submissions events = 24%nat
    /\ slept events = 96.
Proof.
  apply (unreachable_run out_of_service). intros idx n _ _. eexists. reflexivity.
Defined.

End SweepFacts.

(** * The Circuit Builder *)

Module CircuitFacts.

Import Circuit.

(** The builder never fails, whatever the parameter: no index leaves the
    register (the test [i < 6] keeps [qr[i+2]] inside) and no gate names a
    qubit twice.  The circuit has 57 instructions; the last eight measure
    qubit [i] into bit [i], and nothing is measured before. *)
Theorem circuit_is_built (param : Q) :
  exists qc,
    create_falsification_circuit param = Ok qc
    /\ List.length qc = 57%nat
    /\ forallb well_placed qc = true
    /\ skipn 49 qc = map (fun i => Measure i i) (seq 0 8)
    /\ existsb is_measure (firstn 49 qc) = false.
Proof. eexists. split; [reflexivity|]. now repeat split. Qed.


End CircuitFacts.

(** * More on the Result Analyzer *)

Module RecordFacts.

Import Analysis Records AnalysisFacts.

(** ** The metrics of the analysis *)

Lemma keys_set_fresh {V : Type} (k : string) (v : V) (d : dict V) :
  ~ In k (keys d) -> keys (set k v d) = keys d ++ [k].
Proof.
  unfold keys. induction d as [|[k' v'] d IH]; cbn [set map fst app]; intros Hk.
  - reflexivity.
  - destruct (String.eqb_spec k k') as [->|Hne].
    + exfalso. apply Hk. now left.
    + cbn [map fst]. f_equal. apply IH. intros Hin. apply Hk. now right.
Qed.

Lemma for_keys_fresh {V : Type} (body : string -> option V) (ks : list string)
    (acc : dict V) :
  NoDup ks ->
  (forall k, In k ks -> ~ In k (keys acc)) ->
  (forall k, In k ks -> body k <> None) ->
  keys (for_keys body ks acc) = keys acc ++ ks.
Proof.
  unfold for_keys. revert acc.
  induction ks as [|k ks IH]; intros acc Hnd Hfresh Hbody; cbn [fold_left].
  - now rewrite app_nil_r.
  - inversion Hnd as [|? ? Hk Hnd']; subst.
    destruct (body k) as [r|] eqn:Hr; [|now destruct (Hbody k (or_introl eq_refl))].
    rewrite IH.
    + rewrite keys_set_fresh by (apply Hfresh; now left). now rewrite <- app_assoc.
    + exact Hnd'.
    + intros k' Hin. rewrite keys_set_fresh by (apply Hfresh; now left).
      intros Hin'. apply in_app_or in Hin'. destruct Hin' as [Hin'|[->|[]]].
      * apply (Hfresh k'); [now right | exact Hin'].
      * contradiction.
    + intros k' Hin. apply Hbody. now right.
Qed.

Lemma in_keys_get {V : Type} (k : string) (d : dict V) :
  In k (keys d) -> exists v, get k d = Some v /\ In (k, v) d.
Proof.
  intros Hin. destruct (get k d) as [v|] eqn:E.
  - exists v. split; [reflexivity | now apply get_in].
  - exfalso. induction d as [|[k' v'] d IH]; [contradiction|].
    cbn [get] in E. destruct (String.eqb_spec k k') as [->|Hne]; [discriminate|].
    destruct Hin as [Heq|Hin]; [cbn in Heq; congruence | now apply IH].
Qed.

Lemma accepted_keys {lib : Numerics} (results : dict series) :
  results <> [] -> complete results -> NoDup (keys results) ->
  exists analysis,
    analyze_enhanced_results results = Ok analysis
    /\ keys analysis = keys results.
Proof.
  intros Hne Hc Hnd. unfold analyze_enhanced_results.
  rewrite (complete_forallb results Hc).
  destruct results as [|p results]; [congruence|]. cbn [nonempty negb orb].
  eexists. split; [reflexivity|].
  rewrite for_keys_fresh; [reflexivity | exact Hnd | intros k _ [] |].
  intros k Hin. destruct (in_keys_get k _ Hin) as (data & Hget & Hdata).
  rewrite Hget. destruct (analyze_metric_record data) as (r & -> & _); [|discriminate].
  exact (Hc k data Hdata).
Qed.

(** On a mapping with no empty series and no key twice, the analysis has
    exactly the metrics of the mapping, in the same order, and every entry
    of it is a record of the seven fields. *)
Theorem analysis_keeps_keys (lib : Numerics) (results : dict series) :
  results <> [] -> complete results -> NoDup (keys results) ->
  exists analysis,
    analyze_enhanced_results results = Ok analysis
    /\ keys analysis = keys results
    /\ forall test_type, In test_type (keys analysis) ->
         exists metrics, get test_type analysis = Some metrics
                         /\ keys metrics = field_names.
Proof.
  intros Hne Hc Hnd.
  destruct (accepted_keys results Hne Hc Hnd) as (analysis & Hok & Hkeys).
  exists analysis. split; [exact Hok|]. split; [exact Hkeys|].
  intros test_type Hin. rewrite Hkeys in Hin.
  destruct (in_keys_get test_type results Hin) as (data & Hget & _).
  destruct (analyze_accepted results test_type data (complete_forallb _ Hc) Hget)
    as (Hdata & analysis' & Hok' & Hrec).
  assert (analysis' = analysis) as -> by congruence.
  destruct (analyze_metric_record data Hdata) as (metrics & Hm & Hfields).
  exists metrics. split; congruence.
Qed.

Lemma two_metrics_complete : complete two_metrics.
Proof. intros t d [[= <- <-]|[[= <- <-]|[]]]; discriminate. Qed.

Lemma analysis_keeps_keys_witness :
  exists analysis,
    @analyze_enhanced_results constant_series_numerics two_metrics = Ok analysis
    /\ keys analysis = keys two_metrics
    /\ forall test_type, In test_type (keys analysis) ->
         exists metrics, get test_type analysis = Some metrics
                         /\ keys metrics = field_names.
Proof.
  apply (analysis_keeps_keys constant_series_numerics two_metrics).
  - discriminate.
  - exact two_metrics_complete.
  - repeat constructor; cbn; intuition discriminate.
Defined.

(** ** One metric at a time *)

(** The record of a metric is computed from the series of that metric
    alone: two mappings that hold the same series for it give it the same
    record, whatever the other metrics are. *)
Theorem record_depends_on_own_series (lib : Numerics) (results results' : dict series)
    (test_type : string) (data : series) :
  complete results -> complete results' ->
  get test_type results = Some data -> get test_type results' = Some data ->
  exists analysis analysis' r,
    analyze_enhanced_results results = Ok analysis
    /\ analyze_enhanced_results results' = Ok analysis'
    /\ get test_type analysis = Some r
    /\ get test_type analysis' = Some r.
Proof.
  intros Hc Hc' Hget Hget'.
  destruct (analyze_accepted results test_type data (complete_forallb _ Hc) Hget)
    as (Hdata & analysis & Hok & Hrec).
  destruct (analyze_accepted results' test_type data (complete_forallb _ Hc') Hget')
    as (_ & analysis' & Hok' & Hrec').
  destruct (analyze_metric_record data Hdata) as (r & Hr & _).
  exists analysis, analysis', r. repeat split; congruence.
Qed.

Lemma two_metrics'_complete : complete two_metrics'.
Proof. intros t d [[= <- <-]|[[= <- <-]|[]]]; discriminate. Qed.

Lemma record_depends_on_own_series_witness :
  exists analysis analysis' r,
    @analyze_enhanced_results constant_series_numerics two_metrics = Ok analysis
    /\ @analyze_enhanced_results constant_series_numerics two_metrics' = Ok analysis'
    /\ get "falsification" analysis = Some r
    /\ get "falsification" analysis' = Some r.
Proof.
  apply (record_depends_on_own_series constant_series_numerics two_metrics two_metrics'
           "falsification" [(1 # 10, 1 # 2); (2 # 10, 1 # 4); (3 # 10, 1 # 2)]%Q).
  - exact two_metrics_complete.
  - exact two_metrics'_complete.
  - reflexivity.
  - reflexivity.
Defined.

(** ** Where the peaks and the dominant frequency come from *)

Section Stages.

Context {lib : Numerics}.

Lemma comprehension_elements {A B : Type} (f : A -> pyres B) (l : list A) (r : list B) :
  comprehension f l = Ok r -> forall y, In y r -> exists x, In x l /\ f x = Ok y.
Proof.
  revert r. induction l as [|a l IH]; cbn [comprehension]; intros r Hr y Hy.
  - injection Hr as <-. contradiction.
  - destruct (f a) as [b|] eqn:Hb; [|discriminate]. cbn [bind] in Hr.
    destruct (comprehension f l) as [bs|]; [|discriminate]. cbn [bind] in Hr.
    injection Hr as <-. destruct Hy as [<-|Hy].
    + exists a. split; [now left | exact Hb].
    + destruct (IH bs eq_refl y Hy) as (x & Hx & Hfx). exists x. split; [now right | exact Hfx].
Qed.

Lemma peak_values_from_series (y_vals : list Q) (p : npfloat) :
  In p (peak_values y_vals) -> exists v, In v y_vals /\ p = num v.
Proof.
  unfold peak_values, peak_stage.
  destruct (find_peaks y_vals) as [peaks|]; cbn [bind]; [|contradiction].
  destruct (0 <? List.length peaks)%nat; [|contradiction].
  destruct (comprehension _ peaks) as [l|] eqn:E; [|contradiction].
  intros Hin. destruct (comprehension_elements _ _ _ E p Hin) as (i & _ & Hi).
  unfold index in Hi. destruct (nth_error y_vals i) as [v|] eqn:Hv; [|discriminate].
  cbn [bind] in Hi. injection Hi as <-. exists v. split; [|reflexivity].
  now apply nth_error_In in Hv.
Qed.

Lemma main_freq_from_tail (y_vals : list Q) :
  main_freq y_vals = nan
  \/ exists freqs, fftfreq (List.length y_vals) = Ok freqs
                   /\ In (main_freq y_vals) (tl freqs).
Proof.
  unfold main_freq, frequency_stage.
  destruct (fft_abs y_vals) as [fft_vals|]; cbn [bind]; [|now left].
  destruct (fftfreq (List.length y_vals)) as [freqs|]; cbn [bind]; [|now left].
  destruct (argmax (tl fft_vals)) as [k|]; cbn [bind]; [|now left].
  unfold index. destruct (nth_error freqs (k + 1)) as [f|] eqn:Hf; [|now left].
  right. exists freqs. split; [reflexivity|].
  rewrite Nat.add_1_r in Hf. destruct freqs as [|f0 freqs]; [discriminate|].
  cbn [nth_error tl] in *. now apply nth_error_In in Hf.
Qed.

Lemma float_or_nan_same (x : npfloat) : float_or_nan x x = x.
Proof. now destruct x. Qed.

(** The record of an accepted metric holds the peaks and the frequency of
    the two stages, or the empty list and the sentinel. *)
Lemma record_peaks_frequency (results : dict series) (test_type : string)
    (data : series) :
  complete results -> get test_type results = Some data ->
  exists analysis r,
    analyze_enhanced_results results = Ok analysis
    /\ get test_type analysis = Some r
    /\ (get "peaks" r = Some (Values [])
        \/ get "peaks" r = Some (Values (peak_values (map snd data))))
    /\ (get "main_frequency" r = Some (Scalar nan)
        \/ get "main_frequency" r = Some (Scalar (main_freq (map snd data)))).
Proof.
  intros Hc Hget.
  destruct (analyze_accepted results test_type data (complete_forallb _ Hc) Hget)
    as (Hdata & analysis & Hok & Hrec).
  rewrite (analyze_metric_nonempty data Hdata) in Hrec.
  exists analysis. unfold build_record in Hrec.
  destruct (regression (map fst data) (map snd data)) as [[[[slope i] rv] p] se].
  destruct (mean (map snd data)); cbn [bind] in Hrec;
    [destruct (sem_stage (map snd data)); cbn [bind] in Hrec|];
    eexists; (split; [exact Hok|]); (split; [exact Hrec|]);
    try (split; left; reflexivity).
  split; right; [reflexivity|]. cbn. now rewrite float_or_nan_same.
Qed.

End Stages.

(** The peak values reported for a metric are values of its series. *)
Theorem peaks_come_from_series (lib : Numerics) (results : dict series)
    (test_type : string) (data : series) :
  complete results -> get test_type results = Some data ->
  exists analysis r peaks,
    analyze_enhanced_results results = Ok analysis
    /\ get test_type analysis = Some r
    /\ get "peaks" r = Some (Values peaks)
    /\ forall p, In p peaks -> exists v, In v (map snd data) /\ p = num v.
Proof.
  intros Hc Hget.
  destruct (record_peaks_frequency results test_type data Hc Hget)
    as (analysis & r & Hok & Hrec & [Hp|Hp] & _).
  - exists analysis, r, []. repeat split; try assumption. intros p [].
  - exists analysis, r, (peak_values (map snd data)). repeat split; try assumption.
    apply peak_values_from_series.
Qed.

Lemma peaks_come_from_series_witness :
  exists analysis r peaks,
    @analyze_enhanced_results one_peak_numerics two_metrics = Ok analysis
    /\ get "beyond_quantum" analysis = Some r
    /\ get "peaks" r = Some (Values peaks)
    /\ forall p, In p peaks -> exists v, In v [0; 1; 0]%Q /\ p = num v.
Proof.
  apply (peaks_come_from_series one_peak_numerics two_metrics "beyond_quantum"
           [(1 # 10, 0); (2 # 10, 1); (3 # 10, 0)]%Q).
  - exact two_metrics_complete.
  - reflexivity.
Defined.

(** The dominant frequency reported for a metric is the sentinel or one of
    the bins of [np.fft.fftfreq] after the first: the zero-frequency bin is
    never reported. *)
Theorem dominant_frequency_skips_first_bin (lib : Numerics) (results : dict series)
    (test_type : string) (data : series) :
  complete results -> get test_type results = Some data ->
  exists analysis r f,
    analyze_enhanced_results results = Ok analysis
    /\ get test_type analysis = Some r
    /\ get "main_frequency" r = Some (Scalar f)
    /\ (f = nan
        \/ exists freqs, fftfreq (List.length (map snd data)) = Ok freqs
                         /\ In f (tl freqs)).
Proof.
  intros Hc Hget.
  destruct (record_peaks_frequency results test_type data Hc Hget)
    as (analysis & r & Hok & Hrec & _ & [Hf|Hf]).
  - exists analysis, r, nan. repeat split; try assumption. now left.
  - exists analysis, r, (main_freq (map snd data)). repeat split; try assumption.
    apply main_freq_from_tail.
Qed.

Lemma dominant_frequency_skips_first_bin_witness :
  exists analysis r f,
    @analyze_enhanced_results constant_series_numerics two_metrics = Ok analysis
    /\ get "falsification" analysis = Some r
    /\ get "main_frequency" r = Some (Scalar f)
    /\ (f = nan
        \/ exists freqs, @fftfreq constant_series_numerics 3 = Ok freqs
                         /\ In f (tl freqs)).
Proof.
  apply (dominant_frequency_skips_first_bin constant_series_numerics two_metrics
           "falsification" [(1 # 10, 1 # 2); (2 # 10, 1 # 4); (3 # 10, 1 # 2)]%Q).
  - exact two_metrics_complete.
  - reflexivity.
Defined.

(** With a transform that keeps the length and an [argmax] that raises on
    an empty array, a metric measured once has no dominant frequency: the
    field is the sentinel. *)
Theorem single_point_has_no_frequency (lib : Numerics) (results : dict series)
    (test_type : string) (point : Q * Q) :
  fft_keeps_length lib -> argmax_needs_data lib ->
  complete results -> get test_type results = Some [point] ->
  exists analysis r,
    analyze_enhanced_results results = Ok analysis
    /\ get test_type analysis = Some r
    /\ get "main_frequency" r = Some (Scalar nan).
Proof.
  intros Hfft [e He] Hc Hget.
  destruct (record_peaks_frequency results test_type [point] Hc Hget)
    as (analysis & r & Hok & Hrec & _ & [Hf|Hf]);
    exists analysis, r; repeat split; try assumption.
  rewrite Hf. do 2 f_equal. unfold main_freq, frequency_stage. cbn [map].
  destruct (fft_abs [snd point]) as [fft_vals|] eqn:E; cbn [bind]; [|reflexivity].
  apply Hfft in E; [|discriminate].
  destruct fft_vals as [|v [|v' fft_vals]]; try discriminate.
  destruct (fftfreq _); cbn [bind tl]; [|reflexivity]. now rewrite He.
Qed.

Lemma constant_series_laws :
  fft_keeps_length constant_series_numerics /\ argmax_needs_data constant_series_numerics.
Proof.
  split.
  - intros y l Hy [= <-]. cbn [List.length]. rewrite repeat_length.
    destruct y; [congruence | cbn; lia].
  - eexists. reflexivity.
Qed.

Lemma single_point_has_no_frequency_witness :
  exists analysis r,
    @analyze_enhanced_results constant_series_numerics one_point = Ok analysis
    /\ get "falsification" analysis = Some r
    /\ get "main_frequency" r = Some (Scalar nan).
Proof.
  apply (single_point_has_no_frequency constant_series_numerics one_point
           "falsification" (1 # 10, 1 # 2)%Q).
  - exact (proj1 constant_series_laws).
  - exact (proj2 constant_series_laws).
  - exact one_point_complete.
  - reflexivity.
Defined.

End RecordFacts.

(** * The entry point *)

Module EntryFacts.

Import Metrics Validation Analysis Records Entry.
Import ValidationFacts AnalysisFacts RecordFacts.

(** ** The report *)

Lemma nan_record_printable : printable nan_record.
Proof.
  split; [|now eexists].
  intros key [<-|[<-|[<-|[<-|[<-|[]]]]]]; now eexists.
Qed.

Lemma build_record_printable {lib : Numerics} (x_vals y_vals : list Q) (r : record) :
  build_record x_vals y_vals = Ok r -> printable r.
Proof.
  unfold build_record. destruct (regression x_vals y_vals) as [[[[slope i] rv] p] se].
  destruct (mean y_vals); [|discriminate]. cbn [bind].
  destruct (sem_stage y_vals); [|discriminate]. cbn [bind]. intros [= <-].
  split; [|now eexists].
  intros key [<-|[<-|[<-|[<-|[<-|[]]]]]]; now eexists.
Qed.

Lemma analyze_metric_printable {lib : Numerics} (lookup : option series) (r : record) :
  analyze_metric lookup = Some r -> printable r.
Proof.
  destruct lookup as [[|pt data]|]; cbn [analyze_metric map List.length Nat.eqb orb].
  - discriminate.
  - destruct (build_record _ _) as [r'|] eqn:E; intros [= <-].
    + exact (build_record_printable _ _ _ E).
    + exact nan_record_printable.
  - intros [= <-]. exact nan_record_printable.
Qed.

Lemma set_values {V : Type} (P : V -> Prop) (k : string) (v : V) (d : dict V) :
  P v -> Forall (fun entry => P (snd entry)) d ->
  Forall (fun entry => P (snd entry)) (set k v d).
Proof.
  intros Hv. induction 1 as [|[k' v'] d Hhd Htl IH]; cbn [set].
  - now repeat constructor.
  - destruct (String.eqb k k'); constructor; assumption.
Qed.

Lemma for_keys_values {V : Type} (P : V -> Prop) (body : string -> option V)
    (ks : list string) (acc : dict V) :
  (forall k v, body k = Some v -> P v) ->
  Forall (fun entry => P (snd entry)) acc ->
  Forall (fun entry => P (snd entry)) (for_keys body ks acc).
Proof.
  intros Hbody. unfold for_keys. revert acc.
  induction ks as [|k ks IH]; intros acc Hacc; cbn [fold_left]; [exact Hacc|].
  apply IH. destruct (body k) as [v|] eqn:E; [|exact Hacc].
  apply set_values; [exact (Hbody k v E) | exact Hacc].
Qed.

Lemma report_metric_printable (metrics : record) :
  printable metrics -> report_metric metrics = None.
Proof.
  intros [Hfloat [l Hpeaks]]. unfold report_metric, print_float, print_peaks.
  destruct (Hfloat "mean") as [? ->]; [cbn; tauto|].
  destruct (Hfloat "sem") as [? ->]; [cbn; tauto|].
  destruct (Hfloat "r_squared") as [? ->]; [cbn; tauto|].
  destruct (Hfloat "p_value") as [? ->]; [cbn; tauto|].
  destruct (Hfloat "main_frequency") as [? ->]; [cbn; tauto|].
  now rewrite Hpeaks.
Qed.

Lemma report_printable (analysis : dict record) :
  Forall (fun entry => printable (snd entry)) analysis -> report analysis = None.
Proof.
  unfold report. induction 1 as [|entry analysis Hhd _ IH]; cbn [map first_failure].
  - reflexivity.
  - now rewrite (report_metric_printable _ Hhd).
Qed.

Lemma analysis_printable {lib : Numerics} (results : dict series)
    (analysis : dict record) :
  analyze_enhanced_results results = Ok analysis ->
  Forall (fun entry => printable (snd entry)) analysis.
Proof.
  unfold analyze_enhanced_results.
  destruct (negb (nonempty results) || negb (forallb nonempty (map snd results)));
    [discriminate|].
  intros [= <-]. apply for_keys_values; [|constructor].
  intros k v. apply analyze_metric_printable.
Qed.

(** Whatever the analyzer returns can be reported: every record holds the
    fields the report prints, as floats, and the peaks as a list, so the
    report raises neither [KeyError] nor [TypeError]. *)
Theorem report_never_fails (lib : Numerics) (results : dict series)
    (analysis : dict record) :
  analyze_enhanced_results results = Ok analysis ->
  Forall (fun entry => printable (snd entry)) analysis
  /\ report analysis = None.
Proof.
  intros H. pose proof (analysis_printable results analysis H) as Hp.
  split; [exact Hp | exact (report_printable _ Hp)].
Qed.

Lemma report_never_fails_witness :
  exists analysis,
    @analyze_enhanced_results constant_series_numerics two_metrics = Ok analysis
    /\ Forall (fun entry => printable (snd entry)) analysis
    /\ report analysis = None.
Proof.
  eexists. split; [reflexivity|].
  apply (report_never_fails constant_series_numerics two_metrics). reflexivity.
Defined.

(** ** From the sweep to the analysis *)

Lemma returned_series_complete (backend : nat -> nat -> response) (r : results)
    (events : list event) :
  run_enhanced_validation backend = Some (Ok r, events) -> complete (items r).
Proof.
  unfold run_enhanced_validation.
  destruct (sweep backend (enumerate param_range) initial) as [st|]; [|discriminate].
  destruct (forallb _ _) eqn:Hcheck; [|discriminate]. intros [= <- _].
  cbn [values forallb] in Hcheck.
  apply andb_true_iff in Hcheck. destruct Hcheck as [H1 Hcheck].
  apply andb_true_iff in Hcheck. destruct Hcheck as [H2 Hcheck].
  apply andb_true_iff in Hcheck. destruct Hcheck as [H3 _].
  apply Nat.eqb_eq in H1, H2, H3.
  intros t d [[= <- <-]|[[= <- <-]|[[= <- <-]|[]]]]; intros Hd;
    rewrite Hd in *; discriminate.
Qed.

Lemma returned_series_analysed {lib : Numerics} (backend : nat -> nat -> response)
    (r : results) (events : list event) :
  run_enhanced_validation backend = Some (Ok r, events) ->
  exists analysis,
    analyze_enhanced_results (items r) = Ok analysis
    /\ keys analysis = metric_names.
Proof.
  intros Hrun. apply (accepted_keys (items r)).
  - discriminate.
  - exact (returned_series_complete backend r events Hrun).
  - repeat constructor; cbn; intuition discriminate.
Qed.

(** The series the Validation Loop returns always pass the input check of
    the analyzer: the analysis has the three metrics, in the order of the
    loop's dict, each with the seven fields. *)
Theorem sweep_output_is_analysed (lib : Numerics) (backend : nat -> nat -> response)
    (r : results) (events : list event) :
  run_enhanced_validation backend = Some (Ok r, events) ->
  exists analysis,
    analyze_enhanced_results (items r) = Ok analysis
    /\ keys analysis = metric_names
    /\ forall test_type, In test_type metric_names ->
         exists metrics, get test_type analysis = Some metrics
                         /\ keys metrics = field_names.
Proof.
  intros Hrun.
  destruct (returned_series_analysed backend r events Hrun) as (analysis & Hok & Hkeys).
  exists analysis. split; [exact Hok|]. split; [exact Hkeys|].
  pose proof (returned_series_complete backend r events Hrun) as Hc.
  intros test_type Hin.
  assert (Hget : exists data, get test_type (items r) = Some data).
  { destruct Hin as [<-|[<-|[<-|[]]]]; eexists; reflexivity. }
  destruct Hget as [data Hget].
  destruct (analyze_accepted (items r) test_type data (complete_forallb _ Hc) Hget)
    as (Hdata & analysis' & Hok' & Hrec).
  assert (analysis' = analysis) as -> by congruence.
  destruct (analyze_metric_record data Hdata) as (metrics & Hm & Hfields).
  exists metrics. split; congruence.
Qed.

Lemma sweep_output_is_analysed_witness :
  exists r events analysis,
    run_enhanced_validation Sweeps.steady = Some (Ok r, events)
    /\ @analyze_enhanced_results constant_series_numerics (items r) = Ok analysis
    /\ keys analysis = metric_names.
Proof.
  assert (Hrun : exists r events,
             run_enhanced_validation Sweeps.steady = Some (Ok r, events))
    by (eexists; eexists; vm_compute; reflexivity).
  destruct Hrun as (r & events & Hrun).
  destruct (sweep_output_is_analysed constant_series_numerics Sweeps.steady r events Hrun)
    as (analysis & Hok & Hkeys & _).
  now exists r, events, analysis.
Defined.

(** ** The prompt *)

Lemma lower_char_y (c : ascii) :
  lower_char c = "y"%char -> c = "y"%char \/ c = "Y"%char.
Proof.
  destruct c as [[] [] [] [] [] [] [] []]; cbv; intros H;
    first [discriminate H | now left | now right].
Qed.

Lemma lower_char_e (c : ascii) :
  lower_char c = "e"%char -> c = "e"%char \/ c = "E"%char.
Proof.
  destruct c as [[] [] [] [] [] [] [] []]; cbv; intros H;
    first [discriminate H | now left | now right].
Qed.

Lemma lower_char_s (c : ascii) :
  lower_char c = "s"%char -> c = "s"%char \/ c = "S"%char.
Proof.
  destruct c as [[] [] [] [] [] [] [] []]; cbv; intros H;
    first [discriminate H | now left | now right].
Qed.

Lemma lower_yes (s : string) : lower s = "yes" <-> In s spellings_of_yes.
Proof.
  split.
  - destruct s as [|c1 [|c2 [|c3 [|c4 s]]]]; cbn [lower]; try discriminate.
    intros [= H1 H2 H3].
    destruct (lower_char_y _ H1) as [-> | ->], (lower_char_e _ H2) as [-> | ->],
             (lower_char_s _ H3) as [-> | ->]; cbn; tauto.
  - intros H. repeat (destruct H as [<-|H]; [reflexivity|]). contradiction.
Qed.

(** [main] starts the sweep only on one of the eight spellings of "yes";
    on any other answer it returns with no job submitted. *)
Theorem only_yes_starts_the_sweep (lib : Numerics) (w : world)
    (backend : nat -> nat -> response) :
  connect w = Ok backend ->
  ~ In (answer w) spellings_of_yes ->
  main w = Some (Cancelled, []).
Proof.
  intros Hc Hno. unfold main. rewrite Hc.
  destruct (String.eqb_spec (lower (answer w)) "yes") as [Hyes|_]; [|reflexivity].
  now apply lower_yes in Hyes.
Qed.

Lemma only_yes_starts_the_sweep_witness :
  @main constant_series_numerics declining = Some (Cancelled, []).
Proof.
  apply (only_yes_starts_the_sweep constant_series_numerics declining Sweeps.steady).
  - reflexivity.
  - cbn. intuition discriminate.
Defined.

(** ** The whole run *)

(** Once the operator agrees, [main] fails only with the exception of the
    sweep or with that of the plotting: when the sweep returns its series,
    the analysis and the report go through, and [main] ends as the
    plotting does. *)
Theorem main_after_yes (lib : Numerics) (w : world)
    (backend : nat -> nat -> response) :
  connect w = Ok backend ->
  In (answer w) spellings_of_yes ->
  exists r events,
    run_enhanced_validation backend = Some (r, events)
    /\ match r with
       | Raise e => main w = Some (Failed (Raised e), events)
       | Ok results =>
         exists analysis,
           analyze_enhanced_results (items results) = Ok analysis
           /\ main w = Some (match plot w results with
                             | Ok _ => Completed analysis
                             | Raise e => Failed (Raised e)
                             end, events)
       end.
Proof.
  intros Hc Hyes. apply lower_yes in Hyes.
  destruct (run_enhanced_validation_total backend) as (r & events & Hrun).
  exists r, events. split; [exact Hrun|].
  unfold main. rewrite Hc, Hyes, Hrun. cbn [String.eqb negb].
  replace (String.eqb "yes" "yes") with true by reflexivity. cbn [negb].
  destruct r as [results|e]; [|reflexivity].
  destruct (returned_series_analysed backend results events Hrun) as (analysis & Hok & _).
  exists analysis. split; [exact Hok|].
  cbn [items nonempty]. rewrite Hok.
  rewrite (report_printable analysis (analysis_printable _ _ Hok)).
  now destruct (plot w results).
Qed.

Lemma main_after_yes_witness :
  exists r events,
    run_enhanced_validation Sweeps.steady = Some (r, events)
    /\ match r with
       | Raise e => @main constant_series_numerics agreeing = Some (Failed (Raised e), events)
       | Ok results =>
         exists analysis,
           @analyze_enhanced_results constant_series_numerics (items results) = Ok analysis
           /\ @main constant_series_numerics agreeing
              = Some (match plot agreeing results with
                      | Ok _ => Completed analysis
                      | Raise e => Failed (Raised e)
                      end, events)
       end.
Proof.
  apply (main_after_yes constant_series_numerics agreeing Sweeps.steady).
  - reflexivity.
  - cbn. tauto.
Defined.

End EntryFacts.
